(** * ChatInterface: the action reconciliation engine

    A shallow embedding of [ChatInterface.jsx] (the conversation view of the
    React front end): the conversation log held in the [messages] state, the
    turn dispatcher [handleSendMessage], and the polling reconciliation
    [checkCalendarEventStatus].

    Conventions of the embedding.
    - A JavaScript string is the list of its UTF-16 code units.
    - [undefined]/[null] fields are [None].
    - The action arrays hanging off the messages are JavaScript objects that
      [checkCalendarEventStatus] updates in place; they live in a store
      ([gmap] from locations to arrays) and a message holds a location.
    - An [async] function is cut at its [await]: the part before it is one
      atomic step, the part after it is another one, run when the reply
      arrives.  Every function value closes over the variables of the render
      that created it ([Closure]).

    The other components are embedded the same way, each in a module of its
    own: the event form ([EventForm]), the list of events ([EventList]), the
    dashboard that owns the active conversation ([Dashboard]) and the
    calendar page ([Calendar]). *)

From Stdlib Require Import NArith String Ascii.
From stdpp Require Import base option list gmap.

Open Scope N_scope.
Open Scope nat_scope.

(** ** JavaScript strings *)

Module Js.

Abbreviation jsstring := (list N).

(** A string literal of the source. *)
Definition lit (s : string) : jsstring :=
  map N_of_ascii (list_ascii_of_string s).

(** WhiteSpace and LineTerminator code points of ECMAScript, the ones
    [String.prototype.trim] strips. *)
Definition isWhiteSpace (c : N) : bool :=
  bool_decide (c ∈ [9; 10; 11; 12; 13; 32; 160; 5760;
                    8192; 8193; 8194; 8195; 8196; 8197; 8198; 8199; 8200;
                    8201; 8202; 8232; 8233; 8239; 8287; 12288; 65279]%N).

Fixpoint trimStart (s : jsstring) : jsstring :=
  match s with
  | c :: s' => if isWhiteSpace c then trimStart s' else s
  | [] => []
  end.

Definition trimEnd (s : jsstring) : jsstring :=
  reverse (trimStart (reverse s)).

Definition trim (s : jsstring) : jsstring := trimEnd (trimStart s).

(** Truthiness of a string value: every string but the empty one. *)
Definition truthy (s : jsstring) : bool :=
  match s with [] => false | _ :: _ => true end.

(** Truthiness of a possibly missing string. *)
Definition truthy_opt (s : option jsstring) : bool :=
  match s with Some s => truthy s | None => false end.

(** [a === b] on strings. *)
Definition strict_eq (a b : jsstring) : bool := bool_decide (a = b).

End Js.

Import Js.

(** ** Data model *)

Definition loc := nat.

(** [action.details] of a calendar action. *)
Record Details := mkDetails {
  summary : option jsstring;
  start_datetime : option jsstring;
  end_datetime : option jsstring;
  location : option jsstring;
  description : option jsstring;
  htmlLink : option jsstring;
  error : option jsstring
}.

Record Action := mkAction {
  type : jsstring;
  details : option Details;
  image_url : option jsstring;
  a_prompt : option jsstring
}.

(** One entry of the [messages] state.  [actions] is the location of the
  array object, [None] when the field is absent (user and error turns). *)
Record Message := mkMessage {
  msg_id : option N;
  role : jsstring;
  content : jsstring;
  timestamp : N;
  actions : option loc;
  isError : bool
}.

(** One entry of the reply of [GET /api/chat/history/<id>]. *)
Record HistoryItem := mkHistoryItem {
  h_id : N;
  message_type : jsstring;
  h_content : jsstring;
  h_timestamp : N;
  h_actions : option (list Action)
}.

(** [response.data] of [POST /api/chat]. *)
Record ChatResponse := mkChatResponse {
  response : jsstring;
  r_actions : option (list Action);
  session_id : option jsstring
}.

(** [payload.request] of [POST /api/chat]. *)
Record Request := mkRequest {
  prompt : jsstring;
  message_history : list (jsstring * jsstring);
  rq_session_id : option jsstring
}.

Global Instance Details_eq_dec : EqDecision Details.
Proof. solve_decision. Defined.
Global Instance Action_eq_dec : EqDecision Action.
Proof. solve_decision. Defined.
Global Instance Message_eq_dec : EqDecision Message.
Proof. solve_decision. Defined.
Global Instance HistoryItem_eq_dec : EqDecision HistoryItem.
Proof. solve_decision. Defined.

Definition calendar_event_pending : jsstring := lit "calendar_event_pending".
Definition calendar_event_created : jsstring := lit "calendar_event_created".
Definition calendar_event_failed : jsstring := lit "calendar_event_failed".
Definition calendar_event_needs_auth : jsstring := lit "calendar_event_needs_auth".

(** ** The reconciliation loop of [checkCalendarEventStatus] *)

Section Reconcile.

(** [updatedHistory], the reply of the history endpoint. *)
Variable updatedHistory : list HistoryItem.

(** [action => action.type === 'calendar_event_pending'] *)
Definition is_pending (action : Action) : bool :=
  strict_eq (type action) calendar_event_pending.

(** [Array.prototype.findIndex]; [None] stands for [-1]. *)
Fixpoint findIndex {A} (f : A → bool) (l : list A) : option nat :=
  match l with
  | [] => None
  | x :: l' => if f x then Some 0 else S <$> findIndex f l'
  end.

(** The predicate handed to [historyItem.actions.find], for the pending
    action [pending = message.actions[pendingEventIndex]]. *)
Definition is_created_match (pending action : Action) : bool :=
  strict_eq (type action) calendar_event_created &&
  match details action, details pending with
  | Some da, Some dp => bool_decide (summary da = summary dp)
  | _, _ => false
  end.

(** [for (const historyItem of updatedHistory)]: the first item, in the
    order of the reply, whose actions hold a match gives [createdEvent]. *)
Fixpoint scan_history (hist : list HistoryItem) (pending : Action)
  : option Action :=
  match hist with
  | [] => None
  | historyItem :: rest =>
      match h_actions historyItem with
      | Some (a :: acts) =>
          match List.find (is_created_match pending) (a :: acts) with
          | Some createdEvent => Some createdEvent
          | None => scan_history rest pending
          end
      | _ => scan_history rest pending
      end
  end.

(** Body of the outer loop for one [message]; the state threaded through
    is the store and the flag [updated]. *)
Definition process_message (message : Message)
    (st : gmap loc (list Action) * bool) : gmap loc (list Action) * bool :=
  if strict_eq (role message) (lit "assistant") then
    match actions message with
    | Some l =>
        match st.1 !! l with
        | Some (a :: acts) =>
            match findIndex is_pending (a :: acts) with
            | Some pendingEventIndex =>
                match (a :: acts) !! pendingEventIndex with
                | Some pending =>
                    match scan_history updatedHistory pending with
                    | Some createdEvent =>
                        (<[l := <[pendingEventIndex := createdEvent]> (a :: acts)]> st.1,
                         true)
                    | None => st
                    end
                | None => st
                end
            | None => st
            end
        | _ => st
        end
    | None => st
    end
  else st.

(** [for (let i = updatedMessages.length - 1; i >= 0; i--)]; the argument
    [n] is [i + 1]. *)
Fixpoint scan_messages (n : nat) (updatedMessages : list Message)
    (st : gmap loc (list Action) * bool) : gmap loc (list Action) * bool :=
  match n with
  | 0 => st
  | S i =>
      scan_messages i updatedMessages
        (match updatedMessages !! i with
         | Some message => process_message message st
         | None => st
         end)
  end.

(** The loop started with [updated = false]. *)
Definition reconcile (h : gmap loc (list Action)) (updatedMessages : list Message)
  : gmap loc (list Action) * bool :=
  scan_messages (length updatedMessages) updatedMessages (h, false).

End Reconcile.

(** ** The component: state, closures, suspended work *)

(** The variables of one render that the function values created by that
    render close over. *)
Record Closure := mkClosure {
  c_messages : list Message;
  c_input : jsstring;
  c_isLoading : bool;
  c_sessionId : jsstring;
  c_token : option jsstring
}.

(** Work that is waiting for the environment: a timer set with
    [setTimer], or an [async] function suspended at its [await]. *)
Inductive Task :=
| Timer (delay : N) (cl : Closure) (chatSessionId : jsstring)
| AwaitPost (cl : Closure)
| AwaitGet (cl : Closure) (chatSessionId : jsstring)
| AwaitHistory (cl : Closure).

(** What the component does to the outside: the two remote calls and the
    [onNewSession] callback of the parent. *)
Inductive Effect :=
| HttpPostChat (rq : Request) (tok : option jsstring)
| HttpGetHistory (sid : jsstring) (tok : option jsstring)
| OnNewSession (sid : jsstring).

Record State := mkState {
  messages : list Message;
  input : jsstring;
  isLoading : bool;
  sessionId : jsstring;
  token : option jsstring;
  store : gmap loc (list Action);
  tasks : list Task;
  effects : list Effect
}.

Definition setMessages (f : list Message → list Message) (st : State) : State :=
  mkState (f (messages st)) (input st) (isLoading st) (sessionId st) (token st)
          (store st) (tasks st) (effects st).

Definition setInput (s : jsstring) (st : State) : State :=
  mkState (messages st) s (isLoading st) (sessionId st) (token st)
          (store st) (tasks st) (effects st).

Definition setIsLoading (b : bool) (st : State) : State :=
  mkState (messages st) (input st) b (sessionId st) (token st)
          (store st) (tasks st) (effects st).

Definition set_sessionId (sid : jsstring) (st : State) : State :=
  mkState (messages st) (input st) (isLoading st) sid (token st)
          (store st) (tasks st) (effects st).

Definition set_store (h : gmap loc (list Action)) (st : State) : State :=
  mkState (messages st) (input st) (isLoading st) (sessionId st) (token st)
          h (tasks st) (effects st).

Definition set_tasks (ts : list Task) (st : State) : State :=
  mkState (messages st) (input st) (isLoading st) (sessionId st) (token st)
          (store st) ts (effects st).

Definition spawn (t : Task) (st : State) : State :=
  set_tasks (tasks st ++ [t]) st.

Definition emit (e : Effect) (st : State) : State :=
  mkState (messages st) (input st) (isLoading st) (sessionId st) (token st)
          (store st) (tasks st) (effects st ++ [e]).

(** The closure of the current render. *)
Definition closure (st : State) : Closure :=
  mkClosure (messages st) (input st) (isLoading st) (sessionId st) (token st).

(** A new array object. *)
Definition alloc (acts : list Action) (h : gmap loc (list Action))
  : loc * gmap loc (list Action) :=
  let l := fresh (dom h) in (l, <[l := acts]> h).

(** ** [handleSendMessage] *)

Definition error_content : jsstring :=
  lit "Sorry, I encountered an error processing your request. Please try again.".

(** [msg => ({ role: msg.role, content: msg.content })] *)
Definition role_content (msg : Message) : jsstring * jsstring :=
  (role msg, content msg).

(** [action => action.type === 'calendar_event_created' ||
               action.type === 'calendar_event_pending'] *)
Definition is_calendar_action (action : Action) : bool :=
  strict_eq (type action) calendar_event_created ||
  strict_eq (type action) calendar_event_pending.

(** From the call up to [await axios.post(...)].  [now] is [new Date()]. *)
Definition handleSendMessage (now : N) (st : State) : State :=
  let cl := closure st in
  if negb (truthy (trim (c_input cl))) || c_isLoading cl then st
  else
    let userMessage := mkMessage None (lit "user") (c_input cl) now None false in
    let st := setMessages (λ prev, prev ++ [userMessage]) st in
    let st := setInput [] st in
    let st := setIsLoading true st in
    let request :=
      mkRequest (c_input cl)
                (map role_content (c_messages cl))
                (if strict_eq (c_sessionId cl) (lit "new") then None
                 else Some (c_sessionId cl)) in
    spawn (AwaitPost cl) (emit (HttpPostChat request (c_token cl)) st).

(** From the reply of [axios.post] to the end: the rest of the [try] block
    on [Some data], the [catch] block on [None], then [finally]. *)
Definition handleSendMessage_resume (cl : Closure) (reply : option ChatResponse)
    (now : N) (st : State) : State :=
  match reply with
  | Some data =>
      let '(l, h) := alloc (default [] (r_actions data)) (store st) in
      let newActions := default [] (r_actions data) in
      let assistantMessage :=
        mkMessage None (lit "assistant") (response data) now (Some l) false in
      let st := setMessages (λ prev, prev ++ [assistantMessage]) (set_store h st) in
      let st :=
        if strict_eq (c_sessionId cl) (lit "new") && truthy_opt (session_id data)
        then emit (OnNewSession (default [] (session_id data))) st
        else st in
      let st :=
        if existsb is_calendar_action newActions
        then spawn (Timer 3000 cl
                      (if truthy_opt (session_id data)
                       then default [] (session_id data)
                       else c_sessionId cl)) st
        else st in
      setIsLoading false st
  | None =>
      let st :=
        setMessages (λ prev, prev ++
          [mkMessage None (lit "assistant") error_content now None true]) st in
      setIsLoading false st
  end.

(** ** [checkCalendarEventStatus] *)

(** From the call up to [await axios.get(...)]. *)
Definition checkCalendarEventStatus (cl : Closure) (chatSessionId : jsstring)
    (st : State) : State :=
  if negb (truthy_opt (c_token cl)) || negb (truthy chatSessionId)
     || strict_eq chatSessionId (lit "new")
  then st
  else spawn (AwaitGet cl chatSessionId)
             (emit (HttpGetHistory chatSessionId (c_token cl)) st).

(** From the reply of [axios.get] to the end.  [updatedMessages] is a copy of
    the array [messages] of the closure; its elements are the same objects. *)
Definition checkCalendarEventStatus_resume (cl : Closure) (chatSessionId : jsstring)
    (reply : option (list HistoryItem)) (st : State) : State :=
  match reply with
  | Some updatedHistory =>
      let updatedMessages := c_messages cl in
      let '(h, updated) := reconcile updatedHistory (store st) updatedMessages in
      let st := set_store h st in
      if updated then setMessages (λ _, updatedMessages) st
      else spawn (Timer 3000 cl chatSessionId) st
  | None => st
  end.

(** ** [fetchChatHistory] and the effect on [sessionId] *)

Definition fetchChatHistory (cl : Closure) (st : State) : State :=
  if negb (truthy_opt (c_token cl)) then st
  else spawn (AwaitHistory cl)
             (emit (HttpGetHistory (c_sessionId cl) (c_token cl)) st).

(** [history.map(msg => ({ ..., actions: msg.actions || [] }))] *)
Fixpoint format_history (history : list HistoryItem) (h : gmap loc (list Action))
  : list Message * gmap loc (list Action) :=
  match history with
  | [] => ([], h)
  | msg :: rest =>
      let '(l, h) := alloc (default [] (h_actions msg)) h in
      let '(ms, h) := format_history rest h in
      (mkMessage (Some (h_id msg)) (message_type msg) (h_content msg)
                 (h_timestamp msg) (Some l) false :: ms, h)
  end.

Definition fetchChatHistory_resume (reply : option (list HistoryItem))
    (st : State) : State :=
  match reply with
  | Some history =>
      let '(formattedMessages, h) := format_history history (store st) in
      setMessages (λ _, formattedMessages) (set_store h st)
  | None => st
  end.

(** The body of [useEffect(..., [sessionId, token, fetchChatHistory])]. *)
Definition session_effect (st : State) : State :=
  if truthy (sessionId st) && negb (strict_eq (sessionId st) (lit "new"))
  then fetchChatHistory (closure st) st
  else setMessages (λ _, []) st.

(** ** The event loop *)

Inductive Event :=
| EvInput (s : jsstring)
| EvSubmit (now : N)
| EvSession (sid : jsstring)
| EvTimer (k : nat)
| EvPostReply (k : nat) (reply : option ChatResponse) (now : N)
| EvGetReply (k : nat) (reply : option (list HistoryItem)).

Definition take_task (k : nat) (st : State) : State :=
  set_tasks (delete k (tasks st)) st.

(** One turn of the event loop.  Nothing here removes a task other than the
    one that runs: the source never calls [clearTimer], the effect on
    [sessionId] returns no clean-up function, and no request is aborted. *)
Definition step (st : State) (ev : Event) : State :=
  match ev with
  | EvInput s => setInput s st
  | EvSubmit now => handleSendMessage now st
  | EvSession sid =>
      if bool_decide (sid = sessionId st) then st
      else session_effect (set_sessionId sid st)
  | EvTimer k =>
      match tasks st !! k with
      | Some (Timer _ cl chatSessionId) =>
          checkCalendarEventStatus cl chatSessionId (take_task k st)
      | _ => st
      end
  | EvPostReply k reply now =>
      match tasks st !! k with
      | Some (AwaitPost cl) => handleSendMessage_resume cl reply now (take_task k st)
      | _ => st
      end
  | EvGetReply k reply =>
      match tasks st !! k with
      | Some (AwaitGet cl chatSessionId) =>
          checkCalendarEventStatus_resume cl chatSessionId reply (take_task k st)
      | Some (AwaitHistory _) => fetchChatHistory_resume reply (take_task k st)
      | _ => st
      end
  end.

Definition run (st : State) (evs : list Event) : State := foldl step st evs.

(** The component as first mounted by [Dashboard]: [sessionId] is ['new']. *)
Definition initial (tok : option jsstring) : State :=
  mkState [] [] false (lit "new") tok ∅ [] [].

(** * Notions used to state the properties *)

(** All the actions of a history reply, in the order of the reply. *)
Definition history_actions (history : list HistoryItem) : list Action :=
  flat_map (λ historyItem, default [] (h_actions historyItem)) history.

(** The message [m] holds, in store [h], a pending action that the history
    resolves: [acts] is its array, [k] the index of its first pending action
    [p], and [a] the first created action of the history with the summary of
    [p]. *)
Definition resolvable (hist : list HistoryItem)
    (h : gmap loc (list Action)) (m : Message)
    (l : loc) (acts : list Action) (k : nat) (p a : Action) : Prop :=
  role m = lit "assistant" ∧ actions m = Some l ∧ h !! l = Some acts ∧
  findIndex is_pending acts = Some k ∧ acts !! k = Some p ∧
  scan_history hist p = Some a.

(** The locations of the action arrays of a log. *)
Definition action_locs (msgs : list Message) : list loc := omap actions msgs.

(** What one visit of the loop does to the array of an assistant message. *)
Definition resolve_actions (hist : list HistoryItem) (acts : list Action)
  : list Action :=
  match findIndex is_pending acts with
  | Some k =>
      match acts !! k with
      | Some p =>
          match scan_history hist p with
          | Some a => <[k := a]> acts
          | None => acts
          end
      | None => acts
      end
  | None => acts
  end.

Definition pending_count (acts : list Action) : nat :=
  length (List.filter is_pending acts).

(** * Example data *)

Definition calendar_details (title start : string) (link : option string) : Details :=
  mkDetails (Some (lit title)) (Some (lit start)) None None None (lit <$> link) None.

Definition calendar_action (ty : jsstring) (title start : string)
    (link : option string) : Action :=
  mkAction ty (Some (calendar_details title start link)) None None.

Definition assistant_turn (text : string) (l : loc) : Message :=
  mkMessage None (lit "assistant") (lit text) 0 (Some l) false.

Definition user_turn (text : string) : Message :=
  mkMessage None (lit "user") (lit text) 0 None false.

Definition history_item (n : N) (acts : list Action) : HistoryItem :=
  mkHistoryItem n (lit "assistant") (lit "ok") 0 (Some acts).

Definition sync_pending : Action :=
  calendar_action calendar_event_pending "team sync" "2025-01-01T14:00" None.
Definition sync_pending_later : Action :=
  calendar_action calendar_event_pending "team sync" "2025-02-01T09:00" None.
Definition sync_created : Action :=
  calendar_action calendar_event_created "team sync" "2025-01-01T14:00" (Some "link-A"%string).
Definition sync_created_later : Action :=
  calendar_action calendar_event_created "team sync" "2025-02-01T09:00" (Some "link-B"%string).
Definition sync_failed : Action :=
  calendar_action calendar_event_failed "team sync" "2025-01-01T14:00" None.
Definition sync_needs_auth : Action :=
  calendar_action calendar_event_needs_auth "team sync" "2025-01-01T14:00" None.
Definition lunch_pending : Action :=
  calendar_action calendar_event_pending "lunch" "2025-01-02T12:00" None.
Definition lunch_created : Action :=
  calendar_action calendar_event_created "lunch" "2025-01-02T12:00" (Some "link-L"%string).

(** A log of two assistant turns, each with its own array. *)
Definition two_turns : list Message :=
  [assistant_turn "first" 0; assistant_turn "second" 1].

(** ** Notions for the dispatcher and the polling loop *)

(** The request and the user turn of an accepted submit. *)
Definition submitted_request (st : State) : Request :=
  mkRequest (input st) (map role_content (messages st))
            (if strict_eq (sessionId st) (lit "new") then None
             else Some (sessionId st)).

Definition submitted_turn (st : State) (now : N) : Message :=
  mkMessage None (lit "user") (input st) now None false.

(** The synthetic turn of the [catch] block. *)
Definition error_turn (now : N) : Message :=
  mkMessage None (lit "assistant") error_content now None true.

(** Events that complete suspended work: a timer firing or a reply coming
    in.  The other events come from the user or from the parent. *)
Definition completion (ev : Event) : Prop :=
  match ev with
  | EvTimer _ | EvPostReply _ _ _ | EvGetReply _ _ => True
  | EvInput _ | EvSubmit _ | EvSession _ => False
  end.

(** One round of polling on the task at index [k]: the timer fires, then the
    history request is answered with [hist]. *)
Definition poll_round (k : nat) (hist : list HistoryItem) : list Event :=
  [EvTimer k; EvGetReply k (Some hist)].

(** ** Example states and runs *)

(** A closure taken when the log held one turn with a pending action, and a
    component whose only task is a poll timer of that closure. *)
Definition stale_closure : Closure :=
  mkClosure [assistant_turn "ok" 0] (lit "Schedule lunch") false (lit "s1")
            (Some (lit "t")).

Definition polling_state (t : Task) : State :=
  mkState [assistant_turn "ok" 0] [] false (lit "s1") (Some (lit "t"))
          {[0 := [sync_pending]]} [t] [].

Definition reply_with (text : string) (acts : list Action) : option ChatResponse :=
  Some (mkChatResponse (lit text) (Some acts) (Some (lit "s1"))).

(** The session "s1" is opened and its empty history loaded; the user asks
    for a team sync and then for a lunch, and each reply carries a pending
    action.  Two poll timers are then set: the first closes over the empty
    log, the second over the log of the first exchange. *)
Definition two_exchanges : list Event :=
  [EvSession (lit "s1"); EvGetReply 0 (Some []);
   EvInput (lit "Schedule team sync"); EvSubmit 1;
   EvPostReply 0 (reply_with "Scheduling." [sync_pending]) 2;
   EvInput (lit "Schedule lunch"); EvSubmit 3;
   EvPostReply 1 (reply_with "Scheduling." [lunch_pending]) 4].

Definition after_two_exchanges : State :=
  run (initial (Some (lit "t"))) two_exchanges.

Definition first_user_turn : Message :=
  mkMessage None (lit "user") (lit "Schedule team sync") 1 None false.
Definition first_reply_turn : Message :=
  mkMessage None (lit "assistant") (lit "Scheduling.") 2 (Some 0) false.
Definition second_user_turn : Message :=
  mkMessage None (lit "user") (lit "Schedule lunch") 3 None false.
Definition second_reply_turn : Message :=
  mkMessage None (lit "assistant") (lit "Scheduling.") 4 (Some 1) false.

(** The session "s1" is opened and its history loaded: two assistant turns,
    one with a pending team sync, one with a pending lunch.  The user then
    asks a question whose reply carries a calendar action, which sets a poll
    timer closing over the two loaded turns. *)
Definition two_pending_loaded : list Event :=
  [EvSession (lit "s1");
   EvGetReply 0 (Some [history_item 1 [sync_pending]; history_item 2 [lunch_pending]]);
   EvInput (lit "Any news?"); EvSubmit 1;
   EvPostReply 0 (reply_with "Checking." [sync_pending_later]) 2].

Definition sync_now_created : list HistoryItem :=
  [history_item 1 [sync_created]].

Definition third_user_turn : Message :=
  mkMessage None (lit "user") (lit "hello") 5 None false.

(** * More of the conversation view *)

(** [disabled={isLoading || !input.trim()}] of the submit button. *)
Definition submit_disabled (st : State) : bool :=
  isLoading st || negb (truthy (trim (input st))).

(** The closure a task carries. *)
Definition task_closure (t : Task) : Closure :=
  match t with
  | Timer _ cl _ => cl
  | AwaitPost cl => cl
  | AwaitGet cl _ => cl
  | AwaitHistory cl => cl
  end.

(** A log is well formed in a store when its turns have pairwise distinct
    action arrays and every one of them is allocated. *)
Definition log_wf (h : gmap loc (list Action)) (msgs : list Message) : Prop :=
  NoDup (action_locs msgs) ∧ ∀ l, l ∈ action_locs msgs → is_Some (h !! l).

(** A state is well formed when its log is, and the snapshot of the log held
    by the closure of every task is. *)
Definition state_wf (st : State) : Prop :=
  log_wf (store st) (messages st) ∧
  ∀ t, t ∈ tasks st → log_wf (store st) (c_messages (task_closure t)).

Definition is_post (t : Task) : bool :=
  match t with AwaitPost _ => true | _ => false end.

(** The number of chat requests waiting for their reply. *)
Definition posts_in_flight (st : State) : nat :=
  length (List.filter is_post (tasks st)).

(** No array of the log holds a pending action. *)
Definition no_pending (h : gmap loc (list Action)) (msgs : list Message) : Prop :=
  ∀ m l acts, m ∈ msgs → actions m = Some l → h !! l = Some acts →
              findIndex is_pending acts = None.

(** [response.data.session_id || sessionId], the session a poll timer set
    by a reply asks about. *)
Definition poll_session (cl : Closure) (data : ChatResponse) : jsstring :=
  if truthy_opt (session_id data) then default [] (session_id data)
  else c_sessionId cl.

(** The assistant turn appended for a reply, its array being at [l]. *)
Definition reply_turn (data : ChatResponse) (now : N) (l : loc) : Message :=
  mkMessage None (lit "assistant") (response data) now (Some l) false.

(** The turn [fetchChatHistory] makes of a history item, its array being at
    [l]. *)
Definition history_turn (item : HistoryItem) (l : loc) : Message :=
  mkMessage (Some (h_id item)) (message_type item) (h_content item)
            (h_timestamp item) (Some l) false.

(** How an action of an array may differ from what it was: not at all, or
    it was pending and is now a created action matching it. *)
Definition resolves_to (x y : Action) : Prop :=
  x = y ∨ (is_pending x = true ∧ is_created_match x y = true).

(** Events handled by the dispatcher alone: typing, submitting, the reply of
    a submit, a timer firing. *)
Definition dispatcher_event (ev : Event) : Prop :=
  match ev with
  | EvInput _ | EvSubmit _ | EvPostReply _ _ _ | EvTimer _ => True
  | EvSession _ | EvGetReply _ _ => False
  end.

(** ** [renderCalendarAction] *)

(** [value || fallback] for a string that may be missing. *)
Definition or_else (value : option jsstring) (fallback : jsstring) : jsstring :=
  if truthy_opt value then default [] value else fallback.

(** [value && <element showing value>]: the element is there when the value
    is truthy. *)
Definition shown (value : option jsstring) : option jsstring :=
  if truthy_opt value then value else None.

(** [action.details?.field] *)
Definition details_field (field : Details → option jsstring) (action : Action)
  : option jsstring :=
  details action ≫= field.

(** The line with the two dates: there when both are truthy.  The strings
    kept here are the ones the source hands to [new Date(...)]. *)
Definition shown_times (action : Action) : option (jsstring * jsstring) :=
  if truthy_opt (details_field start_datetime action) &&
     truthy_opt (details_field end_datetime action)
  then Some (default [] (details_field start_datetime action),
             default [] (details_field end_datetime action))
  else None.

(** The element returned by [renderCalendarAction], by what varies in it. *)
Inductive Card :=
| EventCreated (title : jsstring) (times : option (jsstring * jsstring))
    (place desc link : option jsstring)
| AccessRequired
| EventFailed (message : jsstring)
| CreatingEvent (title : jsstring) (times : option (jsstring * jsstring))
    (place : option jsstring).

(** [None] is the [null] of the last line. *)
Definition renderCalendarAction (action : Action) : option Card :=
  if strict_eq (type action) calendar_event_created then
    Some (EventCreated (or_else (details_field summary action) (lit "Event"))
                       (shown_times action)
                       (shown (details_field location action))
                       (shown (details_field description action))
                       (shown (details_field htmlLink action)))
  else if strict_eq (type action) calendar_event_needs_auth then
    Some AccessRequired
  else if strict_eq (type action) calendar_event_failed then
    Some (EventFailed (or_else (details_field error action)
                               (lit "There was an error creating your calendar event.")))
  else if strict_eq (type action) calendar_event_pending then
    Some (CreatingEvent (or_else (details_field summary action) (lit "Event"))
                        (shown_times action)
                        (shown (details_field location action)))
  else None.

(** * The event form ([EventForm]) *)

Module EventForm.

(** The inputs of the form, by their [name] attribute. *)
Inductive Field := Summary | Description | Location | StartDatetime | EndDatetime.

Global Instance Field_eq_dec : EqDecision Field.
Proof. solve_decision. Defined.

Definition Field_code (f : Field) : nat :=
  match f with
  | Summary => 0 | Description => 1 | Location => 2
  | StartDatetime => 3 | EndDatetime => 4
  end.

Definition Field_of_code (n : nat) : Field :=
  match n with
  | 0 => Summary | 1 => Description | 2 => Location
  | 3 => StartDatetime | _ => EndDatetime
  end.

Global Instance Field_countable : Countable Field.
Proof. apply (inj_countable' Field_code Field_of_code). by intros []. Defined.

(** The [formData] state. *)
Record FormData := mkFormData {
  summary : jsstring;
  description : jsstring;
  location : jsstring;
  start_datetime : jsstring;
  end_datetime : jsstring;
  timezone : jsstring
}.

(** [formData[name]] *)
Definition get (fd : FormData) (name : Field) : jsstring :=
  match name with
  | Summary => summary fd
  | Description => description fd
  | Location => location fd
  | StartDatetime => start_datetime fd
  | EndDatetime => end_datetime fd
  end.

(** [{ ...formData, [name]: value }] *)
Definition set (fd : FormData) (name : Field) (value : jsstring) : FormData :=
  match name with
  | Summary =>
      mkFormData value (description fd) (location fd) (start_datetime fd)
                 (end_datetime fd) (timezone fd)
  | Description =>
      mkFormData (summary fd) value (location fd) (start_datetime fd)
                 (end_datetime fd) (timezone fd)
  | Location =>
      mkFormData (summary fd) (description fd) value (start_datetime fd)
                 (end_datetime fd) (timezone fd)
  | StartDatetime =>
      mkFormData (summary fd) (description fd) (location fd) value
                 (end_datetime fd) (timezone fd)
  | EndDatetime =>
      mkFormData (summary fd) (description fd) (location fd) (start_datetime fd)
                 value (timezone fd)
  end.

(** The component state: [formData] and [errors].  In [errors] a key maps
    to [Some message] or to [None] for [null]; a key that is not there is
    [undefined]. *)
Record FormState := mkFormState {
  formData : FormData;
  errors : gmap Field (option jsstring)
}.

(** Truthiness of [errors[name]]. *)
Definition error_shown (errs : gmap Field (option jsstring)) (name : Field) : bool :=
  match errs !! name with
  | Some (Some message) => truthy message
  | _ => false
  end.

(** [handleChange] for the input [name] holding [value]. *)
Definition handleChange (name : Field) (value : jsstring) (st : FormState) : FormState :=
  mkFormState (set (formData st) name value)
              (if error_shown (errors st) name
               then <[name := None]> (errors st)
               else errors st).

(** What [onSubmit] is handed: the text fields of [formData] and the two
    [Date] objects, each by its time value ([None] for an invalid date). *)
Record Submitted := mkSubmitted {
  s_summary : jsstring;
  s_description : jsstring;
  s_location : jsstring;
  s_timezone : jsstring;
  s_start_datetime : option Z;
  s_end_datetime : option Z
}.

Section Dates.

(** The time value of [new Date(s)], [None] when it is [NaN]. *)
Variable date_value : jsstring → option Z.

(** [new Date(a) >= new Date(b)]: false as soon as one side is [NaN]. *)
Definition date_ge (a b : jsstring) : bool :=
  match date_value a, date_value b with
  | Some x, Some y => bool_decide (y ≤ x)%Z
  | _, _ => false
  end.

(** [validateForm]: the object [newErrors] handed to [setErrors], and the
    value returned. *)
Definition validateForm (fd : FormData) : gmap Field (option jsstring) * bool :=
  let newErrors : gmap Field (option jsstring) := ∅ in
  let newErrors :=
    if negb (truthy (trim (summary fd)))
    then <[Summary := Some (lit "Title is required")]> newErrors
    else newErrors in
  let newErrors :=
    if negb (truthy (start_datetime fd))
    then <[StartDatetime := Some (lit "Start time is required")]> newErrors
    else newErrors in
  let newErrors :=
    if negb (truthy (end_datetime fd))
    then <[EndDatetime := Some (lit "End time is required")]> newErrors
    else if date_ge (start_datetime fd) (end_datetime fd)
    then <[EndDatetime := Some (lit "End time must be after start time")]> newErrors
    else newErrors in
  (newErrors, bool_decide (size newErrors = 0)).

(** [handleSubmit]: the new state and the argument of [onSubmit] when it is
    called. *)
Definition handleSubmit (st : FormState) : FormState * option Submitted :=
  let '(newErrors, valid) := validateForm (formData st) in
  (mkFormState (formData st) newErrors,
   if valid
   then Some (mkSubmitted (summary (formData st)) (description (formData st))
                          (location (formData st)) (timezone (formData st))
                          (date_value (start_datetime (formData st)))
                          (date_value (end_datetime (formData st))))
   else None).

End Dates.

End EventForm.

(** * The list of events ([EventList]) *)

Module EventList.

(** [event.start] and [event.end] of a calendar event. *)
Record EventTime := mkEventTime {
  date : option jsstring;
  dateTime : option jsstring
}.

Record CalendarEvent := mkCalendarEvent {
  id : jsstring;
  start : option EventTime;
  end_ : option EventTime
}.

(** [event.start?.date != null] *)
Definition isAllDayEvent (event : CalendarEvent) : bool :=
  match start event ≫= date with Some _ => true | None => false end.

Section Formatting.

(** The formatting of dates is left to the platform: [formatDateTime] and
    [formatDate] are the two helpers of the component, [toDateString] and
    [toLocaleTimeString] the methods of [Date] called on [new Date(x)]; each
    takes the argument [x] of [new Date], which may be [undefined]. *)
Variable formatDateTime formatDate toDateString toLocaleTimeString
  : option jsstring → jsstring.

(** [getEventTimeDisplay]; [None] when the call throws a [TypeError]. *)
Definition getEventTimeDisplay (event : CalendarEvent) : option jsstring :=
  if isAllDayEvent event then
    Some (lit "All Day " ++ [183%N] ++ lit " " ++ formatDate (start event ≫= date))
  else if truthy_opt (start event ≫= dateTime) then
    match end_ event with
    | None => None
    | Some e =>
        let startDate := toDateString (start event ≫= dateTime) in
        let endDate := toDateString (dateTime e) in
        if negb (strict_eq startDate endDate) then
          Some (formatDateTime (start event ≫= dateTime) ++ lit " - " ++
                formatDateTime (dateTime e))
        else
          let startTime := toLocaleTimeString (start event ≫= dateTime) in
          let endTime := toLocaleTimeString (dateTime e) in
          Some (formatDate (start event ≫= dateTime) ++ lit ", " ++ startTime ++
                lit " - " ++ endTime)
    end
  else Some (lit "Time not specified").

End Formatting.

End EventList.

(** * The dashboard ([Dashboard]), parent of the conversation view *)

Module Dashboard.

(** One entry of the reply of [GET /api/chat/sessions]. *)
Record Session := mkSession {
  session_id : jsstring;
  title : jsstring;
  last_activity : jsstring
}.

(** Suspended calls.  [fetchChatSessions] waits for the list; when it was
    called by [handleNewSession] the session to select afterwards comes
    with it.  [handleDeleteSession] waits for the confirmation dialog, then
    for the reply of the deletion; it closes over [activeChatId] and
    [token] of the render in which the button was clicked. *)
Inductive Task :=
| AwaitSessions (select_after : option jsstring)
| AwaitConfirm (sid active : jsstring) (tok : option jsstring)
| AwaitDelete (sid active : jsstring).

Inductive Effect :=
| GetSessions (tok : option jsstring)
| DeleteSession (sid : jsstring) (tok : option jsstring)
| ConfirmDialog
| Alert (heading : jsstring).

Record State := mkState {
  chatSessions : list Session;
  activeChatId : jsstring;
  isLoading : bool;
  token : option jsstring;
  tasks : list Task;
  effects : list Effect
}.

Definition setChatSessions (f : list Session → list Session) (st : State) : State :=
  mkState (f (chatSessions st)) (activeChatId st) (isLoading st) (token st)
          (tasks st) (effects st).

Definition setActiveChatId (sid : jsstring) (st : State) : State :=
  mkState (chatSessions st) sid (isLoading st) (token st) (tasks st) (effects st).

Definition setIsLoading (b : bool) (st : State) : State :=
  mkState (chatSessions st) (activeChatId st) b (token st) (tasks st) (effects st).

Definition set_tasks (ts : list Task) (st : State) : State :=
  mkState (chatSessions st) (activeChatId st) (isLoading st) (token st) ts (effects st).

Definition spawn (t : Task) (st : State) : State := set_tasks (tasks st ++ [t]) st.

Definition emit (e : Effect) (st : State) : State :=
  mkState (chatSessions st) (activeChatId st) (isLoading st) (token st)
          (tasks st) (effects st ++ [e]).

Definition take_task (k : nat) (st : State) : State :=
  set_tasks (delete k (tasks st)) st.

(** [fetchChatSessions], up to [await axios.get(...)]. *)
Definition fetchChatSessions (select_after : option jsstring) (st : State) : State :=
  spawn (AwaitSessions select_after) (emit (GetSessions (token st)) (setIsLoading true st)).

(** The rest of [fetchChatSessions].  The reply is [None] when the request
    fails, [Some None] when [response.data] is not an array, [Some (Some l)]
    when it is the array [l]. *)
Definition fetchChatSessions_resume (reply : option (option (list Session)))
    (st : State) : State :=
  match reply with
  | Some data =>
      let sessionsData := default [] data in
      let st := setChatSessions (λ _, sessionsData) st in
      let st :=
        match sessionsData with
        | first :: _ => setActiveChatId (session_id first) st
        | [] => st
        end in
      setIsLoading false st
  | None =>
      setIsLoading false (emit (Alert (lit "Error")) (setChatSessions (λ _, []) st))
  end.

(** [handleNewSession]: [await fetchChatSessions(); setActiveChatId(sessionId)]. *)
Definition handleNewSession (sessionId : jsstring) (st : State) : State :=
  fetchChatSessions (Some sessionId) st.

(** The effect run when the component mounts or the token changes. *)
Definition mount_effect (st : State) : State :=
  if truthy_opt (token st) then fetchChatSessions None st
  else setIsLoading false (setChatSessions (λ _, []) st).

(** [handleDeleteSession], up to the confirmation dialog. *)
Definition handleDeleteSession (sessionId : jsstring) (st : State) : State :=
  spawn (AwaitConfirm sessionId (activeChatId st) (token st)) (emit ConfirmDialog st).

(** After the dialog: nothing when it was dismissed, the request otherwise. *)
Definition handleDeleteSession_confirmed (sid active : jsstring)
    (tok : option jsstring) (isConfirmed : bool) (st : State) : State :=
  if isConfirmed then spawn (AwaitDelete sid active) (emit (DeleteSession sid tok) st)
  else st.

(** After the reply of the deletion: the [try] block on success, the
    [catch] block on failure. *)
Definition handleDeleteSession_resume (sid active : jsstring) (ok : bool)
    (st : State) : State :=
  if ok then
    let st :=
      setChatSessions
        (λ prev, List.filter (λ session, negb (strict_eq (session_id session) sid)) prev)
        st in
    let st := if strict_eq active sid then setActiveChatId (lit "new") st else st in
    emit (Alert (lit "Deleted!")) st
  else emit (Alert (lit "Error")) st.

Inductive Event :=
| EvMount
| EvChatSelect (sid : jsstring)
| EvCreateNewChat
| EvNewSession (sid : jsstring)
| EvDeleteClick (sid : jsstring)
| EvSessionsReply (k : nat) (reply : option (option (list Session)))
| EvConfirm (k : nat) (isConfirmed : bool)
| EvDeleteReply (k : nat) (ok : bool).

Definition step (st : State) (ev : Event) : State :=
  match ev with
  | EvMount => mount_effect st
  | EvChatSelect sid => setActiveChatId sid st
  | EvCreateNewChat => setActiveChatId (lit "new") st
  | EvNewSession sid => handleNewSession sid st
  | EvDeleteClick sid => handleDeleteSession sid st
  | EvSessionsReply k reply =>
      match tasks st !! k with
      | Some (AwaitSessions select_after) =>
          let st := fetchChatSessions_resume reply (take_task k st) in
          match select_after with
          | Some sid => setActiveChatId sid st
          | None => st
          end
      | _ => st
      end
  | EvConfirm k isConfirmed =>
      match tasks st !! k with
      | Some (AwaitConfirm sid active tok) =>
          handleDeleteSession_confirmed sid active tok isConfirmed (take_task k st)
      | _ => st
      end
  | EvDeleteReply k ok =>
      match tasks st !! k with
      | Some (AwaitDelete sid active) =>
          handleDeleteSession_resume sid active ok (take_task k st)
      | _ => st
      end
  end.

Definition run (st : State) (evs : list Event) : State := foldl step st evs.

End Dashboard.

(** * The calendar page ([Calendar]) *)

Module Calendar.

Import EventList.

(** Suspended calls: [fetchEvents] waiting for the list, [handleFormSubmit]
    waiting for the reply of the save (it closes over [formMode]), and
    [handleDeleteEvent] waiting in turn for the confirmation dialog, for the
    reply of the deletion and for the "Deleted!" dialog to be closed. *)
Inductive Task :=
| AwaitEvents
| AwaitSave (mode : jsstring)
| AwaitConfirm (eventId : jsstring)
| AwaitDelete
| AwaitDeletedAlert.

Inductive Effect :=
| GetEvents (tok : option jsstring)
| PostEvent (eventData : EventForm.Submitted) (tok : option jsstring)
| PatchEvent (eventId : jsstring) (eventData : EventForm.Submitted)
    (tok : option jsstring)
| DeleteEvent (eventId : jsstring) (tok : option jsstring)
| ConfirmDialog
| Alert (heading : jsstring).

(** The state of the component; [stored_token] is
    [localStorage.getItem('token')]. *)
Record State := mkState {
  events : list CalendarEvent;
  loading : bool;
  error : option jsstring;
  selectedEvent : option CalendarEvent;
  showForm : bool;
  formMode : jsstring;
  stored_token : option jsstring;
  tasks : list Task;
  effects : list Effect
}.

Definition initial (tok : option jsstring) : State :=
  mkState [] true None None false (lit "create") tok [] [].

Definition setEvents (l : list CalendarEvent) (st : State) : State :=
  mkState l (loading st) (error st) (selectedEvent st) (showForm st) (formMode st)
          (stored_token st) (tasks st) (effects st).

Definition setLoading (b : bool) (st : State) : State :=
  mkState (events st) b (error st) (selectedEvent st) (showForm st) (formMode st)
          (stored_token st) (tasks st) (effects st).

Definition setError (e : option jsstring) (st : State) : State :=
  mkState (events st) (loading st) e (selectedEvent st) (showForm st) (formMode st)
          (stored_token st) (tasks st) (effects st).

Definition setSelectedEvent (e : option CalendarEvent) (st : State) : State :=
  mkState (events st) (loading st) (error st) e (showForm st) (formMode st)
          (stored_token st) (tasks st) (effects st).

Definition setShowForm (b : bool) (st : State) : State :=
  mkState (events st) (loading st) (error st) (selectedEvent st) b (formMode st)
          (stored_token st) (tasks st) (effects st).

Definition setFormMode (mode : jsstring) (st : State) : State :=
  mkState (events st) (loading st) (error st) (selectedEvent st) (showForm st) mode
          (stored_token st) (tasks st) (effects st).

Definition set_tasks (ts : list Task) (st : State) : State :=
  mkState (events st) (loading st) (error st) (selectedEvent st) (showForm st)
          (formMode st) (stored_token st) ts (effects st).

Definition spawn (t : Task) (st : State) : State := set_tasks (tasks st ++ [t]) st.

Definition emit (e : Effect) (st : State) : State :=
  mkState (events st) (loading st) (error st) (selectedEvent st) (showForm st)
          (formMode st) (stored_token st) (tasks st) (effects st ++ [e]).

Definition take_task (k : nat) (st : State) : State :=
  set_tasks (delete k (tasks st)) st.

(** [fetchEvents], up to its [await]. *)
Definition fetchEvents (st : State) : State :=
  spawn AwaitEvents (emit (GetEvents (stored_token st)) (setLoading true st)).

(** The rest of [fetchEvents]; the reply is [None] when the request fails. *)
Definition fetchEvents_resume (reply : option (list CalendarEvent)) (st : State)
  : State :=
  match reply with
  | Some data => setLoading false (setError None (setEvents data st))
  | None =>
      setLoading false
        (setError (Some (lit "Failed to load calendar events. Please check permissions."))
                  st)
  end.

Definition handleCreateEvent (st : State) : State :=
  setShowForm true (setFormMode (lit "create") (setSelectedEvent None st)).

Definition handleEditEvent (event : CalendarEvent) (st : State) : State :=
  setShowForm true (setFormMode (lit "edit") (setSelectedEvent (Some event) st)).

Definition handleViewEvent (event : CalendarEvent) (st : State) : State :=
  setShowForm false (setSelectedEvent (Some event) st).

Definition handleFormCancel (st : State) : State := setShowForm false st.

(** [`Failed to ${formMode === 'create' ? 'create' : 'update'} event.`] *)
Definition save_error (mode : jsstring) : jsstring :=
  lit "Failed to " ++
  (if strict_eq mode (lit "create") then lit "create" else lit "update") ++
  lit " event.".

(** [handleFormSubmit], up to its [await].  In the other mode than
    ['create'] the address of the request reads [selectedEvent.id]; without
    a selected event that throws inside the [try] block, and the [catch]
    block runs. *)
Definition handleFormSubmit (eventData : EventForm.Submitted) (st : State) : State :=
  if strict_eq (formMode st) (lit "create") then
    spawn (AwaitSave (formMode st)) (emit (PostEvent eventData (stored_token st)) st)
  else
    match selectedEvent st with
    | Some event =>
        spawn (AwaitSave (formMode st))
              (emit (PatchEvent (id event) eventData (stored_token st)) st)
    | None => setError (Some (save_error (formMode st))) st
    end.

(** The rest of [handleFormSubmit]. *)
Definition handleFormSubmit_resume (mode : jsstring) (ok : bool) (st : State) : State :=
  if ok then fetchEvents (setSelectedEvent None (setShowForm false st))
  else setError (Some (save_error mode)) st.

(** [handleDeleteEvent], cut at its three [await]s. *)
Definition handleDeleteEvent (eventId : jsstring) (st : State) : State :=
  spawn (AwaitConfirm eventId) (emit ConfirmDialog st).

Definition handleDeleteEvent_confirmed (eventId : jsstring) (isConfirmed : bool)
    (st : State) : State :=
  if isConfirmed
  then spawn AwaitDelete (emit (DeleteEvent eventId (stored_token st)) st)
  else st.

Definition handleDeleteEvent_replied (ok : bool) (st : State) : State :=
  if ok then spawn AwaitDeletedAlert (emit (Alert (lit "Deleted!")) st)
  else emit (Alert (lit "Error!")) (setError (Some (lit "Failed to delete event.")) st).

Definition handleDeleteEvent_resume (st : State) : State :=
  fetchEvents (setSelectedEvent None st).

(** What the right-hand side of the page shows. *)
Inductive Panel :=
| FormPanel (mode : jsstring) (initialData : option CalendarEvent)
| DetailsPanel (event : CalendarEvent)
| Placeholder.

Definition panel (st : State) : Panel :=
  if showForm st then FormPanel (formMode st) (selectedEvent st)
  else match selectedEvent st with
       | Some event => DetailsPanel event
       | None => Placeholder
       end.

(** The events.  Those of the user reach a handler only through an element
    that is on the page: the list while not loading, the edit and delete
    buttons in the details panel, submit and cancel in the form. *)
Inductive Event :=
| EvMount
| EvCreate
| EvView (event : CalendarEvent)
| EvEdit
| EvDelete
| EvFormSubmit (eventData : EventForm.Submitted)
| EvFormCancel
| EvEventsReply (k : nat) (reply : option (list CalendarEvent))
| EvSaveReply (k : nat) (ok : bool)
| EvConfirm (k : nat) (isConfirmed : bool)
| EvDeleteReply (k : nat) (ok : bool)
| EvAlertClosed (k : nat).

Definition step (st : State) (ev : Event) : State :=
  match ev with
  | EvMount => fetchEvents st
  | EvCreate => handleCreateEvent st
  | EvView event => if loading st then st else handleViewEvent event st
  | EvEdit =>
      match panel st with DetailsPanel event => handleEditEvent event st | _ => st end
  | EvDelete =>
      match panel st with
      | DetailsPanel event => handleDeleteEvent (id event) st
      | _ => st
      end
  | EvFormSubmit eventData =>
      match panel st with FormPanel _ _ => handleFormSubmit eventData st | _ => st end
  | EvFormCancel =>
      match panel st with FormPanel _ _ => handleFormCancel st | _ => st end
  | EvEventsReply k reply =>
      match tasks st !! k with
      | Some AwaitEvents => fetchEvents_resume reply (take_task k st)
      | _ => st
      end
  | EvSaveReply k ok =>
      match tasks st !! k with
      | Some (AwaitSave mode) => handleFormSubmit_resume mode ok (take_task k st)
      | _ => st
      end
  | EvConfirm k isConfirmed =>
      match tasks st !! k with
      | Some (AwaitConfirm eventId) =>
          handleDeleteEvent_confirmed eventId isConfirmed (take_task k st)
      | _ => st
      end
  | EvDeleteReply k ok =>
      match tasks st !! k with
      | Some AwaitDelete => handleDeleteEvent_replied ok (take_task k st)
      | _ => st
      end
  | EvAlertClosed k =>
      match tasks st !! k with
      | Some AwaitDeletedAlert => handleDeleteEvent_resume (take_task k st)
      | _ => st
      end
  end.

Definition run (st : State) (evs : list Event) : State := foldl step st evs.

End Calendar.

(** ** Example data for the calendar page *)

Definition standup : EventList.CalendarEvent :=
  EventList.mkCalendarEvent (lit "ev1")
    (Some (EventList.mkEventTime None (Some (lit "2025-01-01T09:00:00Z"))))
    (Some (EventList.mkEventTime None (Some (lit "2025-01-01T09:15:00Z")))).



(** * Properties *)

(** ** Strings *)

Lemma trimStart_nil_iff (s : jsstring) :
  trimStart s = [] ↔ forallb isWhiteSpace s = true.
Proof.
  induction s as [|c s IH]; simpl; [done|].
  destruct (isWhiteSpace c); simpl; [done|].
  split; intros H; discriminate H.
Qed.

Lemma trim_nil_iff (s : jsstring) :
  trim s = [] ↔ forallb isWhiteSpace s = true.
Proof.
  unfold trim, trimEnd. rewrite <- trimStart_nil_iff. split.
  - intros H. apply (f_equal reverse) in H. rewrite reverse_involutive in H.
    destruct (trimStart s) as [|c s'] eqn:E; [done|].
    exfalso. revert H. rewrite reverse_cons. simpl.
    assert (Hlast : isWhiteSpace c = false).
    { clear -E. induction s as [|d s IH]; simpl in E; [done|].
      destruct (isWhiteSpace d) eqn:Ed; [by apply IH|]. by inversion E; subst. }
    generalize (reverse s'). intros r.
    induction r as [|d r IH]; simpl.
    + rewrite Hlast. done.
    + destruct (isWhiteSpace d); [exact IH | done].
  - intros ->. done.
Qed.

Lemma truthy_false (s : jsstring) : truthy s = false ↔ s = [].
Proof. by destruct s. Qed.

(** ** The reconciliation loop *)

Section ReconcileFacts.

Variable hist : list HistoryItem.

Lemma find_app_first {A} (f : A → bool) (l1 l2 : list A) :
  List.find f (l1 ++ l2) =
  match List.find f l1 with Some x => Some x | None => List.find f l2 end.
Proof. induction l1 as [|x l1 IH]; simpl; [done|]. by destruct (f x). Qed.

Lemma scan_history_find (history : list HistoryItem) (pending : Action) :
  scan_history history pending =
  List.find (is_created_match pending) (history_actions history).
Proof.
  induction history as [|item rest IH]; [done|].
  cbn [scan_history history_actions flat_map].
  rewrite find_app_first. fold (history_actions rest). rewrite <- IH.
  destruct (h_actions item) as [[|a acts]|]; done.
Qed.

Lemma is_created_match_spec (pending action : Action) :
  is_created_match pending action = true ↔
  type action = calendar_event_created ∧
  ∃ da dp, details action = Some da ∧ details pending = Some dp ∧
           summary da = summary dp.
Proof.
  unfold is_created_match, strict_eq. rewrite andb_true_iff, bool_decide_eq_true.
  destruct (details action) as [da|], (details pending) as [dp|].
  - rewrite bool_decide_eq_true. split.
    + intros [Ht Hs]. split; [done|]. by exists da, dp.
    + intros [Ht (da' & dp' & [= <-] & [= <-] & Hs)]. done.
  - split; [by intros [_ ?]|]. by intros [_ (? & ? & _ & ? & _)].
  - split; [by intros [_ ?]|]. by intros [_ (? & ? & ? & _)].
  - split; [by intros [_ ?]|]. by intros [_ (? & ? & ? & _)].
Qed.

Lemma created_not_pending (a : Action) :
  type a = calendar_event_created → is_pending a = false.
Proof.
  intros H. unfold is_pending, strict_eq. rewrite H.
  by apply bool_decide_eq_false.
Qed.

Lemma scan_history_created (pending a : Action) :
  scan_history hist pending = Some a →
  a ∈ history_actions hist ∧ is_created_match pending a = true.
Proof.
  rewrite scan_history_find. intros H. apply find_some in H as [Hin Hm].
  split; [by apply list_elem_of_In | done].
Qed.

Lemma findIndex_Some {A} (f : A → bool) (l : list A) (k : nat) :
  findIndex f l = Some k →
  ∃ x, l !! k = Some x ∧ f x = true ∧
       ∀ j y, j < k → l !! j = Some y → f y = false.
Proof.
  revert k. induction l as [|x l IH]; intros k; simpl; [done|].
  destruct (f x) eqn:Hfx.
  - intros [= <-]. exists x. split_and!; [done..|]. intros j y Hj. lia.
  - destruct (findIndex f l) as [k'|]; simpl; [|done].
    intros [= <-]. destruct (IH k' eq_refl) as (y & Hy & Hfy & Hlt).
    exists y. split_and!; [done..|].
    intros [|j] z Hj Hz; simpl in Hz; [by inversion Hz; subst|].
    apply (Hlt j); [lia | done].
Qed.

Lemma process_resolvable m st l acts k p a :
  resolvable hist st.1 m l acts k p a →
  process_message hist m st = (<[l := <[k := a]> acts]> st.1, true).
Proof.
  intros (Hr & Hl & Hh & Hk & Hp & Ha). unfold process_message, strict_eq.
  rewrite Hr, bool_decide_true, Hl, Hh by done.
  destruct acts as [|a0 acts]; [done|]. by rewrite Hk, Hp, Ha.
Qed.

Lemma process_inv m st :
  process_message hist m st = st ∨
  ∃ l acts k p a, resolvable hist st.1 m l acts k p a ∧
    process_message hist m st = (<[l := <[k := a]> acts]> st.1, true).
Proof.
  unfold process_message, strict_eq. case_bool_decide as Hr; [|by left].
  destruct (actions m) as [l|] eqn:Hl; [|by left].
  destruct (st.1 !! l) as [[|a0 acts]|] eqn:Hh; [by left| |by left].
  destruct (findIndex is_pending (a0 :: acts)) as [k|] eqn:Hk; [|by left].
  destruct ((a0 :: acts) !! k) as [p|] eqn:Hp; [|by left].
  destruct (scan_history hist p) as [a|] eqn:Ha; [|by left].
  right. exists l, (a0 :: acts), k, p, a. by repeat split.
Qed.

Lemma process_flag_mono m st :
  st.2 = true → (process_message hist m st).2 = true.
Proof.
  intros H. destruct (process_inv m st) as [->|(?&?&?&?&?&_&->)]; done.
Qed.

Lemma scan_messages_foldr n msgs st :
  scan_messages hist n msgs st = foldr (process_message hist) st (take n msgs).
Proof.
  revert st. induction n as [|i IH]; intros st; simpl.
  - done.
  - destruct (msgs !! i) as [m|] eqn:E.
    + rewrite IH. erewrite take_S_r by done. by rewrite foldr_app.
    + rewrite IH. apply lookup_ge_None in E.
      by rewrite !take_ge by lia.
Qed.

(** The loop visits the messages from the last one to the first one. *)
Lemma reconcile_foldr h msgs :
  reconcile hist h msgs = foldr (process_message hist) (h, false) msgs.
Proof. unfold reconcile. by rewrite scan_messages_foldr, firstn_all. Qed.

Lemma reconcile_snoc h msgs m :
  reconcile hist h (msgs ++ [m]) =
  foldr (process_message hist) (process_message hist m (h, false)) msgs.
Proof. by rewrite reconcile_foldr, foldr_app. Qed.

Lemma foldr_false_id msgs st :
  (foldr (process_message hist) st msgs).2 = false →
  foldr (process_message hist) st msgs = st.
Proof.
  induction msgs as [|m msgs IH]; simpl; [done|].
  destruct (process_inv m (foldr (process_message hist) st msgs))
    as [->|(?&?&?&?&?&_&->)]; [done|]. simpl. done.
Qed.

Lemma reconcile_false_store h msgs :
  (reconcile hist h msgs).2 = false → (reconcile hist h msgs).1 = h.
Proof.
  rewrite reconcile_foldr. intros H. by rewrite (foldr_false_id _ _ H).
Qed.

Lemma reconcile_updated_iff h msgs :
  (reconcile hist h msgs).2 = true ↔
  ∃ m l acts k p a, m ∈ msgs ∧ resolvable hist h m l acts k p a.
Proof.
  rewrite reconcile_foldr. induction msgs as [|m0 msgs IH]; simpl.
  - split; [done|]. intros (m&?&?&?&?&?&Hin&_). by apply elem_of_nil in Hin.
  - set (st' := foldr (process_message hist) (h, false) msgs) in *.
    destruct (st'.2) eqn:Hflag.
    + split; [|intros _; by apply process_flag_mono].
      intros _. destruct IH as [IH _].
      destruct (IH eq_refl) as (m&l&acts&k&p&a&Hin&Hres).
      exists m, l, acts, k, p, a. split; [by right | done].
    + assert (Hst : st' = (h, false)) by (by apply foldr_false_id).
      split.
      * intros H. destruct (process_inv m0 st') as [E|(l&acts&k&p&a&Hres&_)].
        { rewrite E, Hflag in H. done. }
        rewrite Hst in Hres. exists m0, l, acts, k, p, a.
        split; [by left | done].
      * intros (m&l&acts&k&p&a&Hin&Hres).
        apply elem_of_cons in Hin as [->|Hin].
        { rewrite Hst. by erewrite process_resolvable. }
        destruct IH as [_ IH]. assert (Hc : false = true); [|done].
        apply IH. by exists m, l, acts, k, p, a.
Qed.

(** *** Messages that do not share their action arrays *)

Lemma process_lookup_other m st l :
  actions m ≠ Some l → (process_message hist m st).1 !! l = st.1 !! l.
Proof.
  intros Hne. destruct (process_inv m st) as [->|(l'&acts&k&p&a&Hres&->)]; [done|].
  destruct Hres as (_ & Hl & _). simpl.
  rewrite lookup_insert_ne; [done|]. congruence.
Qed.

Lemma process_lookup_self m st l acts :
  role m = lit "assistant" → actions m = Some l → st.1 !! l = Some acts →
  (process_message hist m st).1 !! l = Some (resolve_actions hist acts).
Proof.
  intros Hr Hl Hh. unfold process_message, resolve_actions, strict_eq.
  rewrite Hr, bool_decide_true, Hl, Hh by done.
  destruct acts as [|a0 acts]; [done|].
  destruct (findIndex is_pending (a0 :: acts)) as [k|]; [|done].
  destruct ((a0 :: acts) !! k) as [p|]; [|done].
  destruct (scan_history hist p) as [a|]; [|done].
  simpl. by rewrite lookup_insert_eq.
Qed.

Lemma process_not_assistant m st :
  role m ≠ lit "assistant" → process_message hist m st = st.
Proof.
  intros Hr. unfold process_message, strict_eq. by rewrite bool_decide_false.
Qed.

Lemma foldr_lookup_other msgs st l :
  l ∉ action_locs msgs →
  (foldr (process_message hist) st msgs).1 !! l = st.1 !! l.
Proof.
  induction msgs as [|m msgs IH]; simpl; [done|]. intros Hnin.
  rewrite process_lookup_other.
  - apply IH. intros Hin. apply Hnin. unfold action_locs. simpl.
    destruct (actions m); [by right | done].
  - intros Hl. apply Hnin. unfold action_locs. simpl. rewrite Hl. by left.
Qed.

Lemma reconcile_lookup_other h msgs l :
  l ∉ action_locs msgs → (reconcile hist h msgs).1 !! l = h !! l.
Proof. rewrite reconcile_foldr. apply foldr_lookup_other. Qed.

Lemma action_locs_elem m msgs l :
  m ∈ msgs → actions m = Some l → l ∈ action_locs msgs.
Proof.
  intros Hin Hl. unfold action_locs. apply list_elem_of_omap. by exists m.
Qed.

Lemma reconcile_lookup_assistant h msgs m l acts :
  NoDup (action_locs msgs) → m ∈ msgs →
  role m = lit "assistant" → actions m = Some l → h !! l = Some acts →
  (reconcile hist h msgs).1 !! l = Some (resolve_actions hist acts).
Proof.
  rewrite reconcile_foldr. intros Hnd Hin Hr Hl Hh.
  induction msgs as [|m0 msgs IH]; [by apply elem_of_nil in Hin|].
  simpl. unfold action_locs in Hnd. simpl in Hnd.
  apply elem_of_cons in Hin as [<-|Hin].
  - rewrite Hl in Hnd. apply NoDup_cons in Hnd as [Hnin _].
    apply process_lookup_self; [done..|].
    by rewrite foldr_lookup_other.
  - assert (Hne : actions m0 ≠ Some l).
    { intros Hl0. rewrite Hl0 in Hnd. apply NoDup_cons in Hnd as [Hnin _].
      apply Hnin. by eapply action_locs_elem. }
    rewrite process_lookup_other by done. apply IH; [|done].
    destruct (actions m0); [by apply NoDup_cons in Hnd as [_ ?] | done].
Qed.

Lemma reconcile_lookup_not_assistant h msgs m l :
  NoDup (action_locs msgs) → m ∈ msgs →
  role m ≠ lit "assistant" → actions m = Some l →
  (reconcile hist h msgs).1 !! l = h !! l.
Proof.
  rewrite reconcile_foldr. intros Hnd Hin Hr Hl.
  induction msgs as [|m0 msgs IH]; [by apply elem_of_nil in Hin|].
  simpl. unfold action_locs in Hnd. simpl in Hnd.
  apply elem_of_cons in Hin as [<-|Hin].
  - rewrite Hl in Hnd. apply NoDup_cons in Hnd as [Hnin _].
    rewrite process_not_assistant by done. by rewrite foldr_lookup_other.
  - assert (Hne : actions m0 ≠ Some l).
    { intros Hl0. rewrite Hl0 in Hnd. apply NoDup_cons in Hnd as [Hnin _].
      apply Hnin. by eapply action_locs_elem. }
    rewrite process_lookup_other by done. apply IH; [|done].
    destruct (actions m0); [by apply NoDup_cons in Hnd as [_ ?] | done].
Qed.

(** One visit changes at most the first pending action of the array, and
    puts a created action there. *)
Lemma resolve_actions_cases (acts : list Action) :
  resolve_actions hist acts = acts ∨
  ∃ k p a, findIndex is_pending acts = Some k ∧ acts !! k = Some p ∧
           scan_history hist p = Some a ∧
           resolve_actions hist acts = <[k := a]> acts.
Proof.
  unfold resolve_actions.
  destruct (findIndex is_pending acts) as [k|] eqn:Hk; [|by left].
  destruct (acts !! k) as [p|] eqn:Hp; [|by left].
  destruct (scan_history hist p) as [a|] eqn:Ha; [|by left].
  right. by exists k, p, a.
Qed.

Lemma resolve_actions_changed acts k p a :
  findIndex is_pending acts = Some k → acts !! k = Some p →
  scan_history hist p = Some a → resolve_actions hist acts ≠ acts.
Proof.
  intros Hk Hp Ha. unfold resolve_actions. rewrite Hk, Hp, Ha. intros Heq.
  assert (Hpa : <[k := a]> acts !! k = Some a).
  { apply list_lookup_insert_eq. by eapply lookup_lt_Some. }
  rewrite Heq, Hp in Hpa. injection Hpa as ->.
  apply findIndex_Some in Hk as (x & Hx & Hpend & _).
  rewrite Hp in Hx. injection Hx as <-.
  apply scan_history_created in Ha as [_ Hm].
  apply is_created_match_spec in Hm as [Ht _].
  rewrite (created_not_pending _ Ht) in Hpend. done.
Qed.

Lemma pending_count_insert acts k a :
  findIndex is_pending acts = Some k → is_pending a = false →
  S (pending_count (<[k := a]> acts)) = pending_count acts.
Proof.
  unfold pending_count. revert k.
  induction acts as [|x acts IH]; intros k; simpl; [done|].
  destruct (is_pending x) eqn:Hx.
  - intros [= <-] Ha. simpl. by rewrite Ha.
  - destruct (findIndex is_pending acts) as [k'|]; simpl; [|done].
    intros [= <-] Ha. simpl. rewrite Hx. by apply IH.
Qed.

Lemma pending_count_0 acts :
  pending_count acts = 0 → findIndex is_pending acts = None.
Proof.
  unfold pending_count. induction acts as [|x acts IH]; simpl; [done|].
  destruct (is_pending x); simpl; [done|]. intros H. by rewrite IH.
Qed.

End ReconcileFacts.

(** The match depends on the pending action through its summary only. *)
Lemma scan_history_summary (hist : list HistoryItem) (p q : Action) dp dq :
  details p = Some dp → details q = Some dq → summary dp = summary dq →
  scan_history hist p = scan_history hist q.
Proof.
  intros Hp Hq Hs.
  assert (Hext : ∀ a, is_created_match p a = is_created_match q a).
  { intros a. unfold is_created_match. rewrite Hp, Hq, Hs. done. }
  rewrite !scan_history_find. induction (history_actions hist) as [|a l IH]; [done|].
  simpl. rewrite Hext, IH. done.
Qed.

(** ** C1: what a completed poll looks for *)

(** C1, as stated, fails.  The log holds one pending action titled
    "team sync"; the history holds a [calendar_event_failed] and a
    [calendar_event_needs_auth] action with that very title.  The poll
    resolves nothing: the store is unchanged and [updated] stays [false].
    And with two created entries of that title in the history, the poll
    takes the one that comes first in the reply, not the most recent one. *)
Lemma C1_counterexample :
  reconcile [history_item 1 [sync_failed]; history_item 2 [sync_needs_auth]]
            {[0 := [sync_pending]]} [assistant_turn "ok" 0]
    = ({[0 := [sync_pending]]}, false)
  ∧ reconcile [history_item 1 [sync_created]; history_item 2 [sync_created_later]]
              {[0 := [sync_pending]]} [assistant_turn "ok" 0]
    = ({[0 := [sync_created]]}, true).
Proof. split; vm_compute; reflexivity. Qed.

(** C1, amended.  A completed poll sets [updated] exactly when some
    assistant turn of its log has a first pending action [p] for which the
    history, read in the order of the reply, holds an action satisfying the
    match predicate; an action satisfies it exactly when it has type
    [calendar_event_created] and its summary equals the summary of [p], so
    actions of type [calendar_event_failed] or [calendar_event_needs_auth]
    never do.  The action written in place of [p] is the first one of the
    history, in the order of the reply, that satisfies the predicate (for a
    log whose turns do not share their arrays). *)
Theorem C1_poll_matches_created_only
    (hist : list HistoryItem) (h : gmap loc (list Action)) (msgs : list Message) :
  ((reconcile hist h msgs).2 = true ↔
     ∃ m l acts k p a,
       m ∈ msgs ∧ role m = lit "assistant" ∧ actions m = Some l ∧
       h !! l = Some acts ∧ findIndex is_pending acts = Some k ∧
       acts !! k = Some p ∧
       List.find (is_created_match p) (history_actions hist) = Some a)
  ∧ (∀ p a, is_created_match p a = true ↔
       type a = calendar_event_created ∧
       ∃ da dp, details a = Some da ∧ details p = Some dp ∧
                summary da = summary dp)
  ∧ (∀ p a, type a = calendar_event_failed ∨ type a = calendar_event_needs_auth →
       is_created_match p a = false)
  ∧ (∀ m l acts k p a,
       NoDup (action_locs msgs) →
       m ∈ msgs → role m = lit "assistant" → actions m = Some l →
       h !! l = Some acts → findIndex is_pending acts = Some k →
       acts !! k = Some p →
       List.find (is_created_match p) (history_actions hist) = Some a →
       (reconcile hist h msgs).1 !! l = Some (<[k := a]> acts)).
Proof.
  split_and!.
  - rewrite reconcile_updated_iff. unfold resolvable.
    split; intros (m&l&acts&k&p&a&H); exists m, l, acts, k, p, a;
      [rewrite <- scan_history_find | rewrite scan_history_find]; tauto.
  - apply is_created_match_spec.
  - intros p a [Ht|Ht]; unfold is_created_match, strict_eq; rewrite Ht; done.
  - intros m l acts k p a Hnd Hin Hr Hl Hh Hk Hp Ha.
    rewrite (reconcile_lookup_assistant hist h msgs m l acts) by done.
    rewrite <- scan_history_find in Ha. unfold resolve_actions.
    by rewrite Hk, Hp, Ha.
Qed.

(** ** C2: pending actions with the same title *)

(** C2, as stated, fails.  Two turns each hold a pending action titled "team
    sync", for two different dates.  The history holds a single created
    entry, the one for the first date.  One poll replaces both pending
    actions by that entry: the second pending action is resolved by the
    terminal entry of the first. *)
Lemma C2_counterexample :
  sync_pending ≠ sync_pending_later
  ∧ reconcile [history_item 1 [sync_created]]
              {[0 := [sync_pending]; 1 := [sync_pending_later]]} two_turns
    = ({[0 := [sync_created]; 1 := [sync_created]]}, true).
Proof. split; [done | vm_compute; reflexivity]. Qed.

(** C2, amended.  Matching is by summary alone: in a log whose turns do not
    share their arrays, the first pending actions of two assistant turns
    that carry the same summary are both replaced by the same entry, the
    first created action of the history with that summary. *)
Theorem C2_same_summary_same_entry
    (hist : list HistoryItem) (h : gmap loc (list Action)) (msgs : list Message)
    (m1 m2 : Message) (l1 l2 : loc) (acts1 acts2 : list Action)
    (k1 k2 : nat) (p1 p2 a : Action) (d1 d2 : Details) :
  NoDup (action_locs msgs) →
  m1 ∈ msgs → role m1 = lit "assistant" → actions m1 = Some l1 →
  m2 ∈ msgs → role m2 = lit "assistant" → actions m2 = Some l2 →
  h !! l1 = Some acts1 → findIndex is_pending acts1 = Some k1 →
  acts1 !! k1 = Some p1 →
  h !! l2 = Some acts2 → findIndex is_pending acts2 = Some k2 →
  acts2 !! k2 = Some p2 →
  details p1 = Some d1 → details p2 = Some d2 → summary d1 = summary d2 →
  List.find (is_created_match p1) (history_actions hist) = Some a →
  (reconcile hist h msgs).1 !! l1 = Some (<[k1 := a]> acts1) ∧
  (reconcile hist h msgs).1 !! l2 = Some (<[k2 := a]> acts2).
Proof.
  intros Hnd Hin1 Hr1 Hl1 Hin2 Hr2 Hl2 Hh1 Hk1 Hp1 Hh2 Hk2 Hp2 Hd1 Hd2 Hs Ha.
  rewrite <- scan_history_find in Ha.
  assert (Ha2 : scan_history hist p2 = Some a).
  { by rewrite <- (scan_history_summary hist p1 p2 d1 d2). }
  rewrite (reconcile_lookup_assistant hist h msgs m1 l1 acts1) by done.
  rewrite (reconcile_lookup_assistant hist h msgs m2 l2 acts2) by done.
  unfold resolve_actions. by rewrite Hk1, Hp1, Ha, Hk2, Hp2, Ha2.
Qed.

Lemma C2_same_summary_same_entry_witness :
  NoDup (action_locs two_turns) ∧
  (reconcile [history_item 1 [sync_created]; history_item 2 [sync_created_later]]
             {[0 := [sync_pending]; 1 := [sync_pending_later]]} two_turns).1 !! 0
    = Some [sync_created] ∧
  (reconcile [history_item 1 [sync_created]; history_item 2 [sync_created_later]]
             {[0 := [sync_pending]; 1 := [sync_pending_later]]} two_turns).1 !! 1
    = Some [sync_created].
Proof.
  assert (Hnd : NoDup (action_locs two_turns)) by compute_done.
  split; [exact Hnd|].
  apply (C2_same_summary_same_entry
           [history_item 1 [sync_created]; history_item 2 [sync_created_later]]
           {[0 := [sync_pending]; 1 := [sync_pending_later]]} two_turns
           (assistant_turn "first" 0) (assistant_turn "second" 1) 0 1
           [sync_pending] [sync_pending_later] 0 0
           sync_pending sync_pending_later sync_created
           (calendar_details "team sync" "2025-01-01T14:00" None)
           (calendar_details "team sync" "2025-02-01T09:00" None));
    first [exact Hnd | reflexivity | compute_done].
Defined.

(** ** C8: how many actions one scan replaces *)

(** C8, as stated, fails.  With a pending "team sync" in one turn and a
    pending "lunch" in another, and both created in the history, one scan
    replaces two actions, not only the first one it meets.  And one created
    entry serves twice: a turn with two pending actions titled "team sync"
    has the first replaced by the entry in one scan and the second replaced
    by the same entry in the next scan. *)
Lemma C8_counterexample :
  reconcile [history_item 1 [sync_created; lunch_created]]
            {[0 := [sync_pending]; 1 := [lunch_pending]]} two_turns
    = ({[0 := [sync_created]; 1 := [lunch_created]]}, true)
  ∧ reconcile [history_item 1 [sync_created]]
              {[0 := [sync_pending; sync_pending_later]]} [assistant_turn "ok" 0]
    = ({[0 := [sync_created; sync_pending_later]]}, true)
  ∧ reconcile [history_item 1 [sync_created]]
              {[0 := [sync_created; sync_pending_later]]} [assistant_turn "ok" 0]
    = ({[0 := [sync_created; sync_created]]}, true).
Proof. split_and!; vm_compute; reflexivity. Qed.

Lemma resolve_actions_keeps_other (hist : list HistoryItem)
    (acts : list Action) (j : nat) (x : Action) :
  acts !! j = Some x → is_pending x = false →
  resolve_actions hist acts !! j = Some x.
Proof.
  intros Hj Hx. destruct (resolve_actions_cases hist acts)
    as [->|(k&p&a&Hk&Hp&_&->)]; [done|].
  rewrite list_lookup_insert_ne; [done|]. intros <-.
  apply findIndex_Some in Hk as (y & Hy & Hpend & _). congruence.
Qed.

(** C8, amended.  In a log whose turns do not share their arrays, one scan
    treats every assistant turn: the array of each becomes
    [resolve_actions] of what it was, and every other array is left alone.
    [resolve_actions] looks at the first pending action of the array only:
    an array without a pending action is left as it is; otherwise the first
    pending action is replaced by the first created action of the history
    that matches it, and when there is none the array is left as it is, even
    if a later pending action of the array has a match.  So at most one
    position of an array changes in one scan.  The flag [updated] tells
    whether some array changed.  A created action of the history is not
    used up: two arrays whose first pending actions carry the same summary
    both receive the same entry.  No action is replaced twice: the action
    written is not pending, a scan never changes an action that is not
    pending, so a position once replaced keeps its created action through
    every later scan, whatever the history then says.  The scan goes from
    the most recent turn to the oldest: the last turn of the log is visited
    first. *)
Theorem C8_scan_replaces_first_pending_of_each_turn
    (hist : list HistoryItem) (h : gmap loc (list Action)) (msgs : list Message) :
  NoDup (action_locs msgs) →
  (∀ m l acts, m ∈ msgs → actions m = Some l → h !! l = Some acts →
     (reconcile hist h msgs).1 !! l =
       Some (if strict_eq (role m) (lit "assistant")
             then resolve_actions hist acts else acts))
  ∧ (∀ l, l ∉ action_locs msgs → (reconcile hist h msgs).1 !! l = h !! l)
  ∧ (∀ acts,
       (findIndex is_pending acts = None → resolve_actions hist acts = acts) ∧
       (∀ k p, findIndex is_pending acts = Some k → acts !! k = Some p →
          is_pending p = true ∧
          (∀ j x, j < k → acts !! j = Some x → is_pending x = false) ∧
          resolve_actions hist acts =
            match List.find (is_created_match p) (history_actions hist) with
            | Some a => <[k := a]> acts
            | None => acts
            end))
  ∧ ((reconcile hist h msgs).2 = true ↔
       ∃ m l acts, m ∈ msgs ∧ role m = lit "assistant" ∧ actions m = Some l ∧
                   h !! l = Some acts ∧ resolve_actions hist acts ≠ acts)
  ∧ (∀ acts hist' j x, acts !! j = Some x → is_pending x = false →
       resolve_actions hist' acts !! j = Some x)
  ∧ (∀ acts hist' k p a,
       findIndex is_pending acts = Some k → acts !! k = Some p →
       List.find (is_created_match p) (history_actions hist) = Some a →
       is_pending a = false ∧
       resolve_actions hist acts !! k = Some a ∧
       resolve_actions hist' (resolve_actions hist acts) !! k = Some a)
  ∧ (∀ acts hist', pending_count acts = 1 → resolve_actions hist acts ≠ acts →
       resolve_actions hist' (resolve_actions hist acts) = resolve_actions hist acts)
  ∧ (∀ acts1 acts2 k1 k2 p1 p2 d1 d2 a,
       findIndex is_pending acts1 = Some k1 → acts1 !! k1 = Some p1 →
       findIndex is_pending acts2 = Some k2 → acts2 !! k2 = Some p2 →
       details p1 = Some d1 → details p2 = Some d2 → summary d1 = summary d2 →
       List.find (is_created_match p1) (history_actions hist) = Some a →
       resolve_actions hist acts1 = <[k1 := a]> acts1 ∧
       resolve_actions hist acts2 = <[k2 := a]> acts2)
  ∧ (∀ m, reconcile hist h (msgs ++ [m]) =
          scan_messages hist (length msgs) msgs (process_message hist m (h, false))).
Proof.
  intros Hnd. split_and!.
  - intros m l acts Hin Hl Hh. unfold strict_eq. case_bool_decide as Hr.
    + by apply (reconcile_lookup_assistant hist h msgs m).
    + rewrite <- Hh. by apply (reconcile_lookup_not_assistant hist h msgs m).
  - apply reconcile_lookup_other.
  - intros acts. split.
    + intros Hk. unfold resolve_actions. by rewrite Hk.
    + intros k p Hk Hp. pose proof (findIndex_Some _ _ _ Hk) as (x&Hx&Hpend&Hlt).
      rewrite Hp in Hx. injection Hx as <-. split_and!; [done|done|].
      unfold resolve_actions. by rewrite Hk, Hp, scan_history_find.
  - rewrite reconcile_updated_iff. split.
    + intros (m&l&acts&k&p&a&Hin&Hr&Hl&Hh&Hk&Hp&Ha).
      exists m, l, acts. split_and!; try done.
      by eapply resolve_actions_changed.
    + intros (m&l&acts&Hin&Hr&Hl&Hh&Hne).
      destruct (resolve_actions_cases hist acts)
        as [?|(k&p&a&Hk&Hp&Ha&Heq)]; [done|].
      exists m, l, acts, k, p, a. by repeat split.
  - intros acts hist' j x. apply resolve_actions_keeps_other.
  - intros acts hist' k p a Hk Hp Ha.
    assert (Hnp : is_pending a = false).
    { apply find_some in Ha as [_ Hm].
      apply is_created_match_spec in Hm as [Ht _]. by apply created_not_pending. }
    assert (Hka : resolve_actions hist acts !! k = Some a).
    { unfold resolve_actions. rewrite Hk, Hp, scan_history_find, Ha.
      apply list_lookup_insert_eq. by eapply lookup_lt_Some. }
    split_and!; [done|done|]. by apply resolve_actions_keeps_other.
  - intros acts hist' Hone Hne.
    destruct (resolve_actions_cases hist acts)
      as [?|(k&p&a&Hk&Hp&Ha&Heq)]; [done|].
    rewrite Heq.
    assert (Hnp : is_pending a = false).
    { apply scan_history_created in Ha as [_ Hm].
      apply is_created_match_spec in Hm as [Ht _]. by apply created_not_pending. }
    pose proof (pending_count_insert acts k a Hk Hnp) as Hc.
    rewrite Hone in Hc. injection Hc as Hc.
    unfold resolve_actions at 1. by rewrite (pending_count_0 _ Hc).
  - intros acts1 acts2 k1 k2 p1 p2 d1 d2 a Hk1 Hp1 Hk2 Hp2 Hd1 Hd2 Hs Ha.
    rewrite <- scan_history_find in Ha.
    assert (Ha2 : scan_history hist p2 = Some a).
    { by rewrite <- (scan_history_summary hist p1 p2 d1 d2). }
    unfold resolve_actions. by rewrite Hk1, Hp1, Ha, Hk2, Hp2, Ha2.
  - intros m. rewrite reconcile_snoc, scan_messages_foldr.
    by rewrite firstn_all.
Qed.

Lemma C8_scan_replaces_first_pending_of_each_turn_witness :
  NoDup (action_locs two_turns) ∧
  (reconcile [history_item 1 [sync_created; lunch_created]]
     {[0 := [sync_pending]; 1 := [lunch_pending]]} two_turns).2 = true.
Proof.
  assert (Hnd : NoDup (action_locs two_turns)) by compute_done.
  split; [exact Hnd|].
  apply (C8_scan_replaces_first_pending_of_each_turn
           [history_item 1 [sync_created; lunch_created]]
           {[0 := [sync_pending]; 1 := [lunch_pending]]} two_turns Hnd).
  exists (assistant_turn "first" 0), 0, [sync_pending].
  split_and!; [compute_done | reflexivity | reflexivity | reflexivity |].
  vm_compute. intros H. discriminate H.
Defined.

(** ** The dispatcher *)

Lemma submit_guard_blocks (st : State) :
  forallb isWhiteSpace (input st) = true ∨ isLoading st = true ↔
  negb (truthy (trim (input st))) || isLoading st = true.
Proof.
  rewrite orb_true_iff, negb_true_iff, truthy_false, trim_nil_iff. done.
Qed.

Lemma submit_accepted (st : State) (now : N) :
  forallb isWhiteSpace (input st) = false → isLoading st = false →
  step st (EvSubmit now) =
  mkState (messages st ++ [submitted_turn st now]) [] true (sessionId st)
          (token st) (store st) (tasks st ++ [AwaitPost (closure st)])
          (effects st ++ [HttpPostChat (submitted_request st) (token st)]).
Proof.
  intros Hws Hl. simpl. unfold handleSendMessage.
  assert (Hg : negb (truthy (trim (c_input (closure st)))) || c_isLoading (closure st)
               = false).
  { apply not_true_is_false. intros Hg. apply submit_guard_blocks in Hg.
    destruct Hg as [Hg|Hg]; congruence. }
  rewrite Hg. done.
Qed.

(** C9.  A submit whose input is empty or made of white space only, or
    that arrives while a dispatch is in flight, changes nothing: the state
    after it, log, tasks and issued requests included, is the state before
    it. *)
Theorem C9_blocked_submit_is_noop (st : State) (now : N) :
  forallb isWhiteSpace (input st) = true ∨ isLoading st = true →
  step st (EvSubmit now) = st.
Proof.
  intros H. apply submit_guard_blocks in H. simpl. unfold handleSendMessage.
  simpl. by rewrite H.
Qed.

Lemma C9_blocked_submit_is_noop_witness :
  step (mkState [user_turn "hi"] (lit "  ") false (lit "s1") (Some (lit "t")) ∅ [] [])
       (EvSubmit 7)
  = mkState [user_turn "hi"] (lit "  ") false (lit "s1") (Some (lit "t")) ∅ [] [].
Proof.
  apply (C9_blocked_submit_is_noop
           (mkState [user_turn "hi"] (lit "  ") false (lit "s1") (Some (lit "t")) ∅ [] [])
           7).
  left. reflexivity.
Defined.

(** C10.  An accepted submit issues one request whose [prompt] is the input
    and whose [message_history] holds, turn by turn and in the order of the
    log, the role and the content (and nothing else) of the turns of the log
    as it was before the submit; the user turn appended by the submit, which
    carries the input, is not part of it. *)
Theorem C10_history_is_snapshot_before_append (st : State) (now : N) :
  forallb isWhiteSpace (input st) = false → isLoading st = false →
  ∃ rq,
    effects (step st (EvSubmit now)) = effects st ++ [HttpPostChat rq (token st)] ∧
    prompt rq = input st ∧
    message_history rq = map (λ msg, (role msg, content msg)) (messages st) ∧
    length (message_history rq) = length (messages st) ∧
    (∀ i msg, messages st !! i = Some msg →
       message_history rq !! i = Some (role msg, content msg)) ∧
    messages (step st (EvSubmit now)) =
      messages st ++ [mkMessage None (lit "user") (input st) now None false] ∧
    map (λ msg, (role msg, content msg)) (messages (step st (EvSubmit now))) =
      message_history rq ++ [(lit "user", prompt rq)].
Proof.
  intros Hws Hl. exists (submitted_request st).
  rewrite submit_accepted by done. simpl.
  assert (Hmap : map role_content (messages st) =
                 map (λ msg, (role msg, content msg)) (messages st)) by done.
  rewrite Hmap. split_and!; try done.
  - by rewrite length_map.
  - intros i msg Hi. by rewrite list_lookup_fmap, Hi.
  - by rewrite map_app.
Qed.

Lemma C10_history_is_snapshot_before_append_witness :
  ∃ rq,
    effects (step (mkState [user_turn "hi"; assistant_turn "hello" 0] (lit "more")
                           false (lit "s1") (Some (lit "t")) {[0 := []]} [] [])
                  (EvSubmit 7))
      = [] ++ [HttpPostChat rq (Some (lit "t"))] ∧
    prompt rq = lit "more" ∧
    message_history rq = [(lit "user", lit "hi"); (lit "assistant", lit "hello")].
Proof.
  destruct (C10_history_is_snapshot_before_append
              (mkState [user_turn "hi"; assistant_turn "hello" 0] (lit "more")
                       false (lit "s1") (Some (lit "t")) {[0 := []]} [] [])
              7 eq_refl eq_refl)
    as (rq & He & Hp & Hm & _).
  exists rq. split_and!; [exact He | exact Hp | exact Hm].
Defined.

(** C7.  When the request of an accepted submit fails, the log is the log
    before the submit followed by the user turn and by one turn marked as an
    error; no request other than the one of the submit has been issued, and
    no task is left behind, so nothing will issue the request again.  In any
    state, the failure of a pending submit appends that one error turn after
    the turns already in the log, removes the suspended submit and issues no
    request. *)
Theorem C7_failed_submit_appends_one_error_turn (st : State) (now now' : N) :
  forallb isWhiteSpace (input st) = false → isLoading st = false →
  let st' := run st [EvSubmit now; EvPostReply (length (tasks st)) None now'] in
  messages st' = messages st ++ [submitted_turn st now; error_turn now'] ∧
  isError (error_turn now') = true ∧
  tasks st' = tasks st ∧
  effects st' = effects st ++ [HttpPostChat (submitted_request st) (token st)] ∧
  isLoading st' = false ∧
  (∀ st0 k cl,
     tasks st0 !! k = Some (AwaitPost cl) →
     messages (step st0 (EvPostReply k None now')) = messages st0 ++ [error_turn now'] ∧
     tasks (step st0 (EvPostReply k None now')) = delete k (tasks st0) ∧
     effects (step st0 (EvPostReply k None now')) = effects st0).
Proof.
  intros Hws Hl. cbv zeta.
  assert (Hgen : ∀ st0 k cl,
     tasks st0 !! k = Some (AwaitPost cl) →
     messages (step st0 (EvPostReply k None now')) = messages st0 ++ [error_turn now'] ∧
     tasks (step st0 (EvPostReply k None now')) = delete k (tasks st0) ∧
     effects (step st0 (EvPostReply k None now')) = effects st0).
  { intros st0 k cl Hk. cbn [step]. rewrite Hk. done. }
  unfold run. cbn [foldl]. rewrite submit_accepted by done.
  cbn [step tasks]. rewrite list_lookup_middle by done.
  unfold take_task, set_tasks. cbn [tasks]. rewrite delete_middle, app_nil_r.
  simpl. rewrite <- app_assoc. done.
Qed.

Lemma C7_failed_submit_appends_one_error_turn_witness :
  messages (run (mkState [user_turn "hi"] (lit "more") false (lit "s1")
                         (Some (lit "t")) ∅ [] [])
                [EvSubmit 7; EvPostReply 0 None 8])
  = [user_turn "hi"] ++
    [submitted_turn (mkState [user_turn "hi"] (lit "more") false (lit "s1")
                             (Some (lit "t")) ∅ [] []) 7;
     error_turn 8].
Proof.
  apply (C7_failed_submit_appends_one_error_turn
           (mkState [user_turn "hi"] (lit "more") false (lit "s1")
                    (Some (lit "t")) ∅ [] []) 7 8 eq_refl eq_refl).
Defined.

(** ** The polling loop *)

Lemma run_without_tasks (st : State) (evs : list Event) :
  tasks st = [] → Forall completion evs → run st evs = st.
Proof.
  intros Ht Hall. induction Hall as [|ev evs Hev _ IH]; [done|].
  unfold run. cbn [foldl]. fold (run (step st ev) evs).
  assert (Hstep : step st ev = st).
  { destruct ev; simpl in Hev; try done; simpl; by rewrite Ht. }
  by rewrite Hstep.
Qed.

Lemma timer_fires (st : State) ts d cl sid :
  tasks st = ts ++ [Timer d cl sid] →
  truthy_opt (c_token cl) = true → truthy sid = true → sid ≠ lit "new" →
  step st (EvTimer (length ts)) =
  mkState (messages st) (input st) (isLoading st) (sessionId st) (token st)
          (store st) (ts ++ [AwaitGet cl sid])
          (effects st ++ [HttpGetHistory sid (c_token cl)]).
Proof.
  intros Ht Htok Hsid Hnew. simpl. rewrite Ht, list_lookup_middle by done.
  unfold checkCalendarEventStatus, strict_eq.
  rewrite Htok, Hsid, bool_decide_false by done. simpl.
  unfold spawn, set_tasks, emit. simpl. by rewrite Ht, delete_middle, app_nil_r.
Qed.

Lemma poll_no_match (st : State) ts cl sid hist :
  tasks st = ts ++ [AwaitGet cl sid] →
  (reconcile hist (store st) (c_messages cl)).2 = false →
  step st (EvGetReply (length ts) (Some hist)) =
  mkState (messages st) (input st) (isLoading st) (sessionId st) (token st)
          (store st) (ts ++ [Timer 3000 cl sid]) (effects st).
Proof.
  intros Ht Hno. simpl. rewrite Ht, list_lookup_middle by done.
  unfold checkCalendarEventStatus_resume. simpl.
  pose proof (reconcile_false_store hist (store st) (c_messages cl) Hno) as Hst.
  destruct (reconcile hist (store st) (c_messages cl)) as [h updated].
  simpl in Hno, Hst. subst. simpl.
  unfold spawn, set_tasks. simpl. by rewrite Ht, delete_middle, app_nil_r.
Qed.

(** What a poll leaves in the task list, whatever its reply: a new timer
    when the history came and the scan replaced nothing, nothing otherwise. *)
Lemma poll_reply_tasks (st : State) (k : nat) (cl : Closure) (sid : jsstring)
    (reply : option (list HistoryItem)) :
  tasks st !! k = Some (AwaitGet cl sid) →
  tasks (step st (EvGetReply k reply)) =
  delete k (tasks st) ++
  match reply with
  | Some hist =>
      if (reconcile hist (store st) (c_messages cl)).2 then []
      else [Timer 3000 cl sid]
  | None => []
  end.
Proof.
  intros Hk. cbn [step]. rewrite Hk. destruct reply as [hist|].
  - unfold checkCalendarEventStatus_resume. cbn [take_task set_tasks store].
    destruct (reconcile hist (store st) (c_messages cl)) as [h updated].
    destruct updated; simpl; by rewrite ?app_nil_r.
  - simpl. by rewrite app_nil_r.
Qed.

(** C5, as stated, fails.  The log loaded for session "s1" holds a pending
    team sync and a pending lunch, and a poll timer closes over both.  The
    history then holds the team sync created and never the lunch.  The poll
    replaces the team sync, and since its scan replaced something it sets no
    timer: no task is left, while the lunch, whose counterpart never
    appeared, is still pending. *)
Lemma C5_counterexample :
  let st := run (initial (Some (lit "t"))) two_pending_loaded in
  let polled := run st [EvTimer 0; EvGetReply 0 (Some sync_now_created)] in
  (∃ cl, tasks st = [Timer 3000 cl (lit "s1")]) ∧
  store st !! 0 = Some [sync_pending] ∧ store st !! 1 = Some [lunch_pending] ∧
  store polled !! 0 = Some [sync_created] ∧
  store polled !! 1 = Some [lunch_pending] ∧
  tasks polled = [].
Proof.
  cbv zeta. split_and!; try (vm_compute; reflexivity).
  eexists. vm_compute. reflexivity.
Qed.

(** C5, amended.  A poll whose scan replaces nothing sets a new timer of
    3000 ms for the same closure and the same session, which is also the
    delay of the first timer, set when the reply of a submit carries a
    calendar action.  There is no bound on the number of rounds: whatever
    the number of histories that come in without any replacement, each is
    fetched in turn and the timer is set again, the log and the store being
    left as they were.  The timer depends on the scan as a whole, not on one
    pending action: a poll whose scan replaces some action sets no timer.
    The last three parts give the delay of the first timer and the single
    step, without and with a replacement, in any state. *)
Theorem C5_no_match_polls_again_without_bound
    (hists : list (list HistoryItem)) (st : State)
    (ts : list Task) (d : N) (cl : Closure) (sid : jsstring) :
  tasks st = ts ++ [Timer d cl sid] →
  truthy_opt (c_token cl) = true → truthy sid = true → sid ≠ lit "new" →
  Forall (λ hist, (reconcile hist (store st) (c_messages cl)).2 = false) hists →
  let st' := run st (flat_map (poll_round (length ts)) hists) in
  tasks st' = ts ++ [Timer (match hists with [] => d | _ => 3000%N end) cl sid] ∧
  messages st' = messages st ∧ store st' = store st ∧
  effects st' =
    effects st ++ replicate (length hists) (HttpGetHistory sid (c_token cl)) ∧
  (∀ cl0 data now st0,
     existsb is_calendar_action (default [] (r_actions data)) = true →
     ∃ sid0, tasks (handleSendMessage_resume cl0 (Some data) now st0) =
             tasks st0 ++ [Timer 3000 cl0 sid0]) ∧
  (∀ st0 k cl0 sid0 hist,
     tasks st0 !! k = Some (AwaitGet cl0 sid0) →
     (reconcile hist (store st0) (c_messages cl0)).2 = false →
     tasks (step st0 (EvGetReply k (Some hist))) =
       delete k (tasks st0) ++ [Timer 3000 cl0 sid0]) ∧
  (∀ st0 k cl0 sid0 hist,
     tasks st0 !! k = Some (AwaitGet cl0 sid0) →
     (reconcile hist (store st0) (c_messages cl0)).2 = true →
     tasks (step st0 (EvGetReply k (Some hist))) = delete k (tasks st0)).
Proof.
  intros Ht Htok Hsid Hnew Hall. cbv zeta.
  assert (Hmatch : ∀ st0 k cl0 sid0 hist,
     tasks st0 !! k = Some (AwaitGet cl0 sid0) →
     (reconcile hist (store st0) (c_messages cl0)).2 = true →
     tasks (step st0 (EvGetReply k (Some hist))) = delete k (tasks st0)).
  { intros st0 k cl0 sid0 hist Hk Hyes.
    rewrite (poll_reply_tasks st0 k cl0 sid0 (Some hist) Hk), Hyes.
    by rewrite app_nil_r. }
  assert (Hany : ∀ st0 k cl0 sid0 hist,
     tasks st0 !! k = Some (AwaitGet cl0 sid0) →
     (reconcile hist (store st0) (c_messages cl0)).2 = false →
     tasks (step st0 (EvGetReply k (Some hist))) =
       delete k (tasks st0) ++ [Timer 3000 cl0 sid0]).
  { intros st0 k cl0 sid0 hist Hk Hno. cbn [step]. rewrite Hk.
    unfold checkCalendarEventStatus_resume. cbn [take_task set_tasks store].
    destruct (reconcile hist (store st0) (c_messages cl0)) as [h0 updated].
    simpl in Hno. subst updated. done. }
  assert (Hfirst : ∀ cl0 data now st0,
     existsb is_calendar_action (default [] (r_actions data)) = true →
     ∃ sid0, tasks (handleSendMessage_resume cl0 (Some data) now st0) =
             tasks st0 ++ [Timer 3000 cl0 sid0]).
  { intros cl0 data now st0 Hcal. unfold handleSendMessage_resume, alloc.
    rewrite Hcal. eexists.
    destruct (strict_eq (c_sessionId cl0) (lit "new") && truthy_opt (session_id data));
      reflexivity. }
  remember (store st) as h eqn:Hh in Hall. revert st d Ht Hh.
  induction Hall as [|hist hists Hno _ IH]; intros st d Ht Hh.
  - simpl. rewrite app_nil_r. done.
  - cbn [flat_map poll_round app]. unfold run. cbn [foldl]. rewrite Hh in Hno.
    rewrite (timer_fires st ts d cl sid) by done.
    rewrite (poll_no_match _ ts cl sid hist) by done.
    cbn [messages input isLoading sessionId token store effects].
    match goal with |- context [foldl step ?s ?evs] =>
      fold (run s evs);
      destruct (IH s 3000%N eq_refl Hh) as (IHt & IHm & IHs & IHe & _ & _ & _)
    end.
    rewrite IHt, IHm, IHs, IHe. cbn [messages store effects length replicate].
    split_and!; try done.
    + by destruct hists.
    + by rewrite <- app_assoc.
Qed.

Lemma C5_no_match_polls_again_without_bound_witness :
  let st' := run (polling_state (Timer 3000 stale_closure (lit "s1")))
                 (flat_map (poll_round 0) [[]; [history_item 1 [sync_failed]]; []]) in
  tasks st' = [Timer 3000 stale_closure (lit "s1")] ∧
  messages st' = [assistant_turn "ok" 0] ∧
  store st' = {[0 := [sync_pending]]} ∧
  effects st' = replicate 3 (HttpGetHistory (lit "s1") (Some (lit "t"))).
Proof.
  destruct (C5_no_match_polls_again_without_bound
              [[]; [history_item 1 [sync_failed]]; []]
              (polling_state (Timer 3000 stale_closure (lit "s1")))
              [] 3000 stale_closure (lit "s1"))
    as (Ht & Hm & Hs & He & _ & _ & _).
  - reflexivity.
  - reflexivity.
  - reflexivity.
  - intros H. discriminate H.
  - repeat constructor.
  - cbv zeta. split_and!; [exact Ht | exact Hm | exact Hs | exact He].
Defined.

(** ** C3: a poll that fails *)

(** C3, as stated, fails.  The component waits for the reply of one poll.
    When the reply is an error no task is left, so no further poll will run;
    when the reply is a history without a match the timer is set again. *)
Lemma C3_counterexample :
  tasks (step (polling_state (AwaitGet stale_closure (lit "s1")))
              (EvGetReply 0 None)) = []
  ∧ tasks (step (polling_state (AwaitGet stale_closure (lit "s1")))
                (EvGetReply 0 (Some []))) = [Timer 3000 stale_closure (lit "s1")].
Proof. split; vm_compute; reflexivity. Qed.

(** C3, amended.  A poll whose request fails ends there: the step only
    removes the suspended poll, leaving log, store, other tasks and issued
    requests as they were, and sets no timer.  If that poll was the only
    task, no later timer or reply event changes anything: polling for the
    pending action has stopped.  Whatever the reply, the one case in which
    the poll sets the timer of the next poll is a history in which its scan
    found no match; a failed poll and a poll that found a match leave no
    timer. *)
Theorem C3_failed_poll_is_not_retried
    (st : State) (k : nat) (cl : Closure) (sid : jsstring) :
  tasks st !! k = Some (AwaitGet cl sid) →
  step st (EvGetReply k None) = take_task k st ∧
  (∀ evs, delete k (tasks st) = [] → Forall completion evs →
     run (step st (EvGetReply k None)) evs = take_task k st) ∧
  (∀ reply,
     tasks (step st (EvGetReply k reply)) =
     delete k (tasks st) ++
     match reply with
     | Some hist =>
         if (reconcile hist (store st) (c_messages cl)).2 then []
         else [Timer 3000 cl sid]
     | None => []
     end).
Proof.
  intros Hk.
  assert (Hstep : step st (EvGetReply k None) = take_task k st).
  { simpl. by rewrite Hk. }
  split_and!; [done| |].
  - intros evs Hempty Hall. rewrite Hstep. by apply run_without_tasks.
  - intros reply. by apply poll_reply_tasks.
Qed.

Lemma C3_failed_poll_is_not_retried_witness :
  run (step (polling_state (AwaitGet stale_closure (lit "s1"))) (EvGetReply 0 None))
      [EvTimer 0; EvGetReply 0 (Some [history_item 1 [sync_created]])]
  = take_task 0 (polling_state (AwaitGet stale_closure (lit "s1"))).
Proof.
  apply (C3_failed_poll_is_not_retried
           (polling_state (AwaitGet stale_closure (lit "s1"))) 0
           stale_closure (lit "s1") eq_refl).
  - reflexivity.
  - repeat constructor.
Defined.

(** ** A conversation in session "s1" *)

Lemma after_two_exchanges_log :
  messages after_two_exchanges =
    [first_user_turn; first_reply_turn; second_user_turn; second_reply_turn]
  ∧ store after_two_exchanges = {[0 := [sync_pending]; 1 := [lunch_pending]]}
  ∧ (∃ cl1 cl2, tasks after_two_exchanges =
                  [Timer 3000 cl1 (lit "s1"); Timer 3000 cl2 (lit "s1")]
                ∧ c_messages cl1 = []
                ∧ c_messages cl2 = [first_user_turn; first_reply_turn]).
Proof.
  split_and!; try (vm_compute; reflexivity).
  eexists _, _. split_and!; vm_compute; reflexivity.
Qed.

(** ** C4: switching the session *)

(** C4, as stated, fails.  After the two exchanges the parent switches the
    view to a new conversation, which empties the log.  The second poll
    timer of session "s1" still fires, its request is still answered, and
    the match it finds puts the first exchange of "s1" back into the log and
    rewrites the action array of its reply. *)
Lemma C4_counterexample :
  let switched := step after_two_exchanges (EvSession (lit "new")) in
  let polled := run switched [EvTimer 1; EvGetReply 1 (Some sync_now_created)] in
  sessionId switched = lit "new" ∧ messages switched = [] ∧
  store switched !! 0 = Some [sync_pending] ∧
  sessionId polled = lit "new" ∧
  messages polled = [first_user_turn; first_reply_turn] ∧
  store polled !! 0 = Some [sync_created].
Proof. cbv zeta. split_and!; vm_compute; reflexivity. Qed.

Lemma session_switch_keeps_tasks (st : State) (sid : jsstring) :
  ∃ extra, tasks (step st (EvSession sid)) = tasks st ++ extra.
Proof.
  simpl. case_bool_decide; [exists []; by rewrite app_nil_r|].
  unfold session_effect, fetchChatHistory. simpl.
  destruct (truthy sid && negb (strict_eq sid (lit "new"))).
  - destruct (negb (truthy_opt (token st))); simpl.
    + exists []. by rewrite app_nil_r.
    + by eexists.
  - exists []. by rewrite app_nil_r.
Qed.

Lemma session_switch_keeps_store (st : State) (sid : jsstring) :
  store (step st (EvSession sid)) = store st.
Proof.
  simpl. case_bool_decide; [done|].
  unfold session_effect, fetchChatHistory. simpl.
  destruct (truthy sid && negb (strict_eq sid (lit "new"))); [|done].
  by destruct (negb (truthy_opt (token st))).
Qed.

(** C4, amended.  Switching the session cancels nothing.  Every task of the
    component, a poll timer or a poll request in flight included, is still
    there after the switch, at the same index, and the store is untouched.
    The polls of the previous session go on as if there had been no switch:
    a timer that fires after the switch still issues the history request of
    the previous session, and a poll answered after the switch still scans
    its snapshot, writes the created actions it finds into the arrays of the
    previous session, and sets its timer again when it finds none. *)
Theorem C4_session_switch_cancels_no_poll (st : State) (sid : jsstring) :
  (∀ k t, tasks st !! k = Some t → tasks (step st (EvSession sid)) !! k = Some t)
  ∧ store (step st (EvSession sid)) = store st
  ∧ (∀ k d cl csid,
       tasks st !! k = Some (Timer d cl csid) →
       truthy_opt (c_token cl) = true → truthy csid = true → csid ≠ lit "new" →
       effects (step (step st (EvSession sid)) (EvTimer k)) =
         effects (step st (EvSession sid)) ++ [HttpGetHistory csid (c_token cl)] ∧
       tasks (step (step st (EvSession sid)) (EvTimer k)) =
         delete k (tasks (step st (EvSession sid))) ++ [AwaitGet cl csid])
  ∧ (∀ k cl csid hist,
       tasks st !! k = Some (AwaitGet cl csid) →
       store (step (step st (EvSession sid)) (EvGetReply k (Some hist)))
         = (reconcile hist (store st) (c_messages cl)).1 ∧
       tasks (step (step st (EvSession sid)) (EvGetReply k (Some hist)))
         = delete k (tasks (step st (EvSession sid))) ++
           (if (reconcile hist (store st) (c_messages cl)).2 then []
            else [Timer 3000 cl csid])).
Proof.
  destruct (session_switch_keeps_tasks st sid) as [extra Hts].
  pose proof (session_switch_keeps_store st sid) as Hst.
  split_and!; [|done| |].
  - intros k t Hk. rewrite Hts. by apply lookup_app_l_Some.
  - intros k d cl csid Hk Htok Hcsid Hnew.
    assert (Hk' : tasks (step st (EvSession sid)) !! k = Some (Timer d cl csid)).
    { rewrite Hts. by apply lookup_app_l_Some. }
    generalize dependent (step st (EvSession sid)). intros st1 _ _ Hk1.
    cbn [step]. rewrite Hk1. unfold checkCalendarEventStatus, strict_eq.
    rewrite Htok, Hcsid, bool_decide_false by done. done.
  - intros k cl csid hist Hk.
    assert (Hk' : tasks (step st (EvSession sid)) !! k = Some (AwaitGet cl csid)).
    { rewrite Hts. by apply lookup_app_l_Some. }
    generalize dependent (step st (EvSession sid)). intros st1 _ Hst1 Hk1.
    rewrite (poll_reply_tasks st1 k cl csid (Some hist) Hk1), Hst1.
    split; [|done].
    cbn [step]. rewrite Hk1. unfold checkCalendarEventStatus_resume.
    cbn [take_task set_tasks store]. rewrite Hst1.
    destruct (reconcile hist (store st) (c_messages cl)) as [h updated].
    by destruct updated.
Qed.

(** ** C6: a turn appended while a poll is in flight *)

(** C6: the code loses turns.  After the two exchanges the second poll
    timer fires and its request is in flight; the user submits "hello",
    which is appended to the log as its fifth turn; then the history comes
    in with the team sync created.  The poll writes its own snapshot of the
    log, taken before the second exchange: the log is cut down to the first
    exchange, and the turn "hello" and the whole second exchange are gone. *)
Theorem C6_reconciliation_write_loses_appended_turn :
  let before := run after_two_exchanges
                    [EvTimer 1; EvInput (lit "hello"); EvSubmit 5] in
  let after := step before (EvGetReply 1 (Some sync_now_created)) in
  messages before =
    [first_user_turn; first_reply_turn; second_user_turn; second_reply_turn;
     third_user_turn] ∧
  messages after = [first_user_turn; first_reply_turn] ∧
  (third_user_turn ∉ messages after) ∧
  store after !! 0 = Some [sync_created].
Proof.
  cbv zeta. split_and!; try (vm_compute; reflexivity). compute_done.
Qed.

(** * Further properties of the conversation view *)

(** ** Well-formed states *)

Lemma action_locs_app (a b : list Message) :
  action_locs (a ++ b) = action_locs a ++ action_locs b.
Proof. unfold action_locs. apply omap_app. Qed.

Lemma alloc_fresh (acts : list Action) (h : gmap loc (list Action)) :
  h !! (alloc acts h).1 = None.
Proof. simpl. apply not_elem_of_dom. apply is_fresh. Qed.

Lemma log_wf_mono (h h' : gmap loc (list Action)) (msgs : list Message) :
  (∀ l, is_Some (h !! l) → is_Some (h' !! l)) → log_wf h msgs → log_wf h' msgs.
Proof. intros Hmono [Hnd Hall]. split; [done|]. intros l Hl. by apply Hmono, Hall. Qed.

Lemma log_wf_nil (h : gmap loc (list Action)) : log_wf h [].
Proof. split; [constructor|]. intros l Hl. by apply elem_of_nil in Hl. Qed.

Lemma log_wf_snoc_none h msgs m :
  actions m = None → log_wf h msgs → log_wf h (msgs ++ [m]).
Proof.
  intros Hm [Hnd Hall]. unfold log_wf. rewrite action_locs_app.
  unfold action_locs at 2 4. simpl. rewrite Hm. simpl. by rewrite app_nil_r.
Qed.

Lemma log_wf_snoc_fresh h msgs m l acts :
  actions m = Some l → h !! l = None → log_wf h msgs →
  log_wf (<[l := acts]> h) (msgs ++ [m]).
Proof.
  intros Hm Hfresh [Hnd Hall]. unfold log_wf. rewrite action_locs_app.
  unfold action_locs at 2 4. simpl. rewrite Hm. simpl. split.
  - apply NoDup_app. split_and!; [done| |apply NoDup_singleton].
    intros l' Hl' Hin. apply list_elem_of_singleton in Hin as ->.
    destruct (Hall l Hl') as [x Hx]. congruence.
  - intros l' Hl'. apply elem_of_app in Hl' as [Hl'|Hl'].
    + destruct (decide (l = l')) as [->|Hne].
      * rewrite lookup_insert_eq. by eexists.
      * rewrite lookup_insert_ne by done. by apply Hall.
    + apply list_elem_of_singleton in Hl' as ->. rewrite lookup_insert_eq. by eexists.
Qed.

Lemma insert_keeps_allocated (h : gmap loc (list Action)) l acts l' :
  is_Some (h !! l') → is_Some (<[l := acts]> h !! l').
Proof.
  intros H. destruct (decide (l = l')) as [->|Hne].
  - rewrite lookup_insert_eq. by eexists.
  - by rewrite lookup_insert_ne.
Qed.

Lemma foldr_keeps_allocated hist msgs st l :
  is_Some (st.1 !! l) →
  is_Some ((foldr (process_message hist) st msgs).1 !! l).
Proof.
  intros H. induction msgs as [|m msgs IH]; simpl; [done|].
  destruct (process_inv hist m (foldr (process_message hist) st msgs))
    as [->|(l'&acts&k&p&a&_&->)]; [done|].
  simpl. by apply insert_keeps_allocated.
Qed.

Lemma reconcile_keeps_allocated hist h msgs l :
  is_Some (h !! l) → is_Some ((reconcile hist h msgs).1 !! l).
Proof. rewrite reconcile_foldr. apply (foldr_keeps_allocated hist msgs (h, false)). Qed.

Lemma format_history_spec (history : list HistoryItem) (h : gmap loc (list Action)) :
  NoDup (action_locs (format_history history h).1) ∧
  (∀ l, l ∈ action_locs (format_history history h).1 →
        h !! l = None ∧ is_Some ((format_history history h).2 !! l)) ∧
  (∀ l, is_Some (h !! l) → (format_history history h).2 !! l = h !! l).
Proof.
  revert h. induction history as [|msg rest IH]; intros h.
  - simpl. split_and!; [constructor| |done].
    intros l Hl. by apply elem_of_nil in Hl.
  - cbn [format_history]. unfold alloc.
    set (l0 := fresh (dom h)).
    set (h0 := <[l0 := default [] (h_actions msg)]> h).
    assert (Hl0 : h !! l0 = None) by (apply not_elem_of_dom, is_fresh).
    destruct (IH h0) as (Hnd & Hnew & Hold).
    destruct (format_history rest h0) as [ms h1]. simpl in *.
    unfold action_locs. simpl. fold (action_locs ms).
    split_and!.
    + constructor; [|done]. intros Hin. destruct (Hnew l0 Hin) as [Hn _].
      unfold h0 in Hn. by rewrite lookup_insert_eq in Hn.
    + intros l Hl. apply elem_of_cons in Hl as [->|Hl].
      * split; [done|]. rewrite Hold; unfold h0; rewrite lookup_insert_eq; by eexists.
      * destruct (Hnew l Hl) as [Hn Hs]. split; [|done].
        destruct (decide (l0 = l)) as [<-|Hne]; [done|].
        unfold h0 in Hn. by rewrite lookup_insert_ne in Hn.
    + intros l Hl. rewrite Hold.
      * unfold h0. rewrite lookup_insert_ne; [done|]. intros <-.
        rewrite Hl0 in Hl. by destruct Hl.
      * unfold h0. by apply insert_keeps_allocated.
Qed.

Lemma elem_of_delete_task (ts : list Task) (k : nat) (t : Task) :
  t ∈ delete k ts → t ∈ ts.
Proof.
  intros H. eapply elem_of_sublist; [exact H|]. apply sublist_delete.
Qed.

Lemma state_wf_step (st : State) (ev : Event) :
  state_wf st → state_wf (step st ev).
Proof.
  intros [Hlog Htasks]. destruct ev as [s|now|sid|k|k reply now|k reply]; simpl.
  - done.
  - unfold handleSendMessage.
    destruct (negb (truthy (trim (c_input (closure st)))) || c_isLoading (closure st));
      [done|].
    split; simpl.
    + by apply log_wf_snoc_none.
    + intros t Ht. apply elem_of_app in Ht as [Ht|Ht]; [by apply Htasks|].
      apply list_elem_of_singleton in Ht as ->. done.
  - case_bool_decide; [done|]. unfold session_effect, fetchChatHistory. simpl.
    destruct (truthy sid && negb (strict_eq sid (lit "new"))).
    + destruct (negb (truthy_opt (token st))); [done|]. split; [done|]. simpl.
      intros t Ht. apply elem_of_app in Ht as [Ht|Ht]; [by apply Htasks|].
      apply list_elem_of_singleton in Ht as ->. done.
    + split; [apply log_wf_nil | done].
  - destruct (tasks st !! k) as [[d cl sidk|cl|cl sidk|cl]|] eqn:Hk; try done.
    assert (Hcl : log_wf (store st) (c_messages cl)).
    { apply (Htasks (Timer d cl sidk)). by eapply list_elem_of_lookup_2. }
    unfold checkCalendarEventStatus.
    destruct (negb (truthy_opt (c_token cl)) || negb (truthy sidk)
              || strict_eq sidk (lit "new")).
    + split; [done|]. simpl. intros t Ht. (apply elem_of_delete_task in Ht; by apply Htasks).
    + split; [done|]. simpl. intros t Ht.
      apply elem_of_app in Ht as [Ht|Ht];
        [(apply elem_of_delete_task in Ht; by apply Htasks)|].
      apply list_elem_of_singleton in Ht as ->. done.
  - destruct (tasks st !! k) as [[d cl sidk|cl|cl sidk|cl]|] eqn:Hk; try done.
    assert (Hcl : log_wf (store st) (c_messages cl)).
    { apply (Htasks (AwaitPost cl)). by eapply list_elem_of_lookup_2. }
    destruct reply as [data|]; simpl.
    + set (l := fresh (dom (store st))).
      assert (Hl : store st !! l = None) by (apply not_elem_of_dom, is_fresh).
      assert (Hmono : ∀ msgs, log_wf (store st) msgs →
                log_wf (<[l := default [] (r_actions data)]> (store st)) msgs).
      { intros msgs. apply log_wf_mono. intros l'. apply insert_keeps_allocated. }
      destruct (strict_eq (c_sessionId cl) (lit "new") && truthy_opt (session_id data));
        destruct (existsb is_calendar_action (default [] (r_actions data)));
        (split; simpl; [by apply log_wf_snoc_fresh|]);
        intros t Ht;
        try (apply elem_of_app in Ht as [Ht|Ht];
             [|apply list_elem_of_singleton in Ht as ->; by apply Hmono]);
        (apply elem_of_delete_task in Ht; by apply Hmono, Htasks).
    + split; simpl; [by apply log_wf_snoc_none|].
      intros t Ht. (apply elem_of_delete_task in Ht; by apply Htasks).
  - destruct (tasks st !! k) as [[d cl sidk|cl|cl sidk|cl]|] eqn:Hk; try done.
    + assert (Hcl : log_wf (store st) (c_messages cl)).
      { apply (Htasks (AwaitGet cl sidk)). by eapply list_elem_of_lookup_2. }
      destruct reply as [hist|]; simpl.
      * unfold checkCalendarEventStatus_resume. simpl.
        assert (Hmono : ∀ msgs, log_wf (store st) msgs →
                  log_wf (reconcile hist (store st) (c_messages cl)).1 msgs).
        { intros msgs. apply log_wf_mono. intros l'. apply reconcile_keeps_allocated. }
        destruct (reconcile hist (store st) (c_messages cl)) as [h updated].
        simpl in Hmono. destruct updated; (split; simpl; [by apply Hmono|]);
          intros t Ht;
          try (apply elem_of_app in Ht as [Ht|Ht];
               [|apply list_elem_of_singleton in Ht as ->; by apply Hmono]);
          (apply elem_of_delete_task in Ht; by apply Hmono, Htasks).
      * split; [done|]. simpl. intros t Ht.
        (apply elem_of_delete_task in Ht; by apply Htasks).
    + destruct reply as [history|]; simpl.
      * unfold fetchChatHistory_resume. simpl.
        destruct (format_history_spec history (store st)) as (Hnd & Hnew & Hold).
        destruct (format_history history (store st)) as [ms h]. simpl in *.
        assert (Hmono : ∀ msgs, log_wf (store st) msgs → log_wf h msgs).
        { intros msgs. apply log_wf_mono. intros l' Hl'. by rewrite Hold. }
        split; simpl.
        -- split; [done|]. intros l Hl. by apply Hnew.
        -- intros t Ht. (apply elem_of_delete_task in Ht; by apply Hmono, Htasks).
      * split; [done|]. simpl. intros t Ht.
        (apply elem_of_delete_task in Ht; by apply Htasks).
Qed.

(** X1.  Every state the component can reach from its first mount is well
    formed: the turns of the log have pairwise distinct action arrays, all
    allocated in the store, and the same holds of the snapshot of the log
    that each timer or suspended call closes over.  So the scans of
    [checkCalendarEventStatus] never meet two turns sharing an array. *)
Theorem reachable_states_are_well_formed (tok : option jsstring) (evs : list Event) :
  state_wf (run (initial tok) evs).
Proof.
  assert (Hrun : ∀ st, state_wf st → state_wf (run st evs)).
  { induction evs as [|ev evs IH]; intros st Hst; [done|].
    unfold run. cbn [foldl]. apply IH. by apply state_wf_step. }
  apply Hrun. split; [apply log_wf_nil|]. intros t Ht. by apply elem_of_nil in Ht.
Qed.

(** ** The reply of a submit *)

Lemma post_reply_success (st : State) (k : nat) (cl : Closure)
    (data : ChatResponse) (now : N) :
  tasks st !! k = Some (AwaitPost cl) →
  step st (EvPostReply k (Some data) now) =
  mkState (messages st ++ [reply_turn data now (fresh (dom (store st)))])
          (input st) false (sessionId st) (token st)
          (<[fresh (dom (store st)) := default [] (r_actions data)]> (store st))
          (delete k (tasks st) ++
             (if existsb is_calendar_action (default [] (r_actions data))
              then [Timer 3000 cl (poll_session cl data)] else []))
          (effects st ++
             (if strict_eq (c_sessionId cl) (lit "new") && truthy_opt (session_id data)
              then [OnNewSession (default [] (session_id data))] else [])).
Proof.
  intros Hk. cbn [step]. rewrite Hk. unfold handleSendMessage_resume, alloc.
  cbn [take_task set_tasks store].
  destruct (strict_eq (c_sessionId cl) (lit "new") && truthy_opt (session_id data));
    destruct (existsb is_calendar_action (default [] (r_actions data)));
    simpl; by rewrite ?app_nil_r.
Qed.

(** X2.  The reply to the request of a submit appends one assistant turn
    after whatever the log holds by then, with the text of the reply and a
    newly allocated array holding its actions (an empty array when the reply
    has none); it ends the loading state.  A poll timer of 3000 ms is set
    exactly when one of the actions has type [calendar_event_created] or
    [calendar_event_pending] (an action already created starts polling too,
    a failed one or an image does not), and [onNewSession] is called exactly
    when the submit was made in the conversation ['new'] and the reply
    carries a non-empty session id. *)
Theorem successful_reply_appends_turn_and_may_start_polling
    (st : State) (k : nat) (cl : Closure) (data : ChatResponse) (now : N) :
  tasks st !! k = Some (AwaitPost cl) →
  let st' := step st (EvPostReply k (Some data) now) in
  (∃ l, store st !! l = None ∧
        messages st' = messages st ++ [reply_turn data now l] ∧
        store st' = <[l := default [] (r_actions data)]> (store st)) ∧
  isLoading st' = false ∧
  ((∃ a, a ∈ default [] (r_actions data) ∧
         (type a = calendar_event_created ∨ type a = calendar_event_pending)) →
     tasks st' = delete k (tasks st) ++ [Timer 3000 cl (poll_session cl data)]) ∧
  ((∀ a, a ∈ default [] (r_actions data) →
         type a ≠ calendar_event_created ∧ type a ≠ calendar_event_pending) →
     tasks st' = delete k (tasks st)) ∧
  (effects st' = effects st ++ [OnNewSession (default [] (session_id data))] ↔
     c_sessionId cl = lit "new" ∧ truthy_opt (session_id data) = true) ∧
  (effects st' = effects st ∨
   effects st' = effects st ++ [OnNewSession (default [] (session_id data))]).
Proof.
  intros Hk. cbv zeta. rewrite (post_reply_success st k cl data now Hk).
  cbn [messages store isLoading tasks effects].
  assert (Hcal : existsb is_calendar_action (default [] (r_actions data)) = true ↔
            ∃ a, a ∈ default [] (r_actions data) ∧
                 (type a = calendar_event_created ∨ type a = calendar_event_pending)).
  { rewrite existsb_exists. split; intros (a & Hin & Ha); exists a.
    - split; [by apply list_elem_of_In|]. unfold is_calendar_action, strict_eq in Ha.
      apply orb_true_iff in Ha as [Ha|Ha]; apply bool_decide_eq_true in Ha; tauto.
    - split; [by apply list_elem_of_In|]. unfold is_calendar_action, strict_eq.
      apply orb_true_iff. destruct Ha as [Ha|Ha]; [left|right];
        by apply bool_decide_eq_true. }
  split_and!.
  - exists (fresh (dom (store st))). split_and!; try done.
    apply not_elem_of_dom, is_fresh.
  - done.
  - intros Hex. apply Hcal in Hex. by rewrite Hex.
  - intros Hall.
    destruct (existsb is_calendar_action (default [] (r_actions data))) eqn:E;
      [|by rewrite app_nil_r].
    destruct Hcal as [Hcal _]. destruct (Hcal eq_refl) as (a & Hin & Ha).
    destruct (Hall a Hin). tauto.
  - unfold strict_eq.
    destruct (bool_decide (c_sessionId cl = lit "new")) eqn:Hnew;
      destruct (truthy_opt (session_id data)) eqn:Hsid; simpl.
    + apply bool_decide_eq_true in Hnew. done.
    + rewrite app_nil_r. split; [|by intros [_ ?]].
      intros H. apply (f_equal length) in H. rewrite length_app in H. simpl in H. lia.
    + apply bool_decide_eq_false in Hnew. rewrite app_nil_r.
      split; [|by intros [? _]].
      intros H. apply (f_equal length) in H. rewrite length_app in H. simpl in H. lia.
    + apply bool_decide_eq_false in Hnew. rewrite app_nil_r.
      split; [|by intros [? _]].
      intros H. apply (f_equal length) in H. rewrite length_app in H. simpl in H. lia.
  - destruct (strict_eq (c_sessionId cl) (lit "new") && truthy_opt (session_id data));
      [by right | left; by rewrite app_nil_r].
Qed.

Lemma successful_reply_appends_turn_and_may_start_polling_witness :
  isLoading (step (mkState [user_turn "hi"] [] true (lit "s1") (Some (lit "t")) ∅
                           [AwaitPost stale_closure] [])
                  (EvPostReply 0 (reply_with "Scheduling." [sync_pending]) 9))
  = false.
Proof.
  apply (successful_reply_appends_turn_and_may_start_polling
           (mkState [user_turn "hi"] [] true (lit "s1") (Some (lit "t")) ∅
                    [AwaitPost stale_closure] [])
           0 stale_closure
           (mkChatResponse (lit "Scheduling.") (Some [sync_pending]) (Some (lit "s1")))
           9 eq_refl).
Defined.

(** ** Polls and the log they scan *)

Lemma poll_rounds_no_match (hists : list (list HistoryItem)) (st : State)
    (ts : list Task) (d : N) (cl : Closure) (sid : jsstring) :
  tasks st = ts ++ [Timer d cl sid] →
  truthy_opt (c_token cl) = true → truthy sid = true → sid ≠ lit "new" →
  (∀ hist, (reconcile hist (store st) (c_messages cl)).2 = false) →
  run st (flat_map (poll_round (length ts)) hists) =
  mkState (messages st) (input st) (isLoading st) (sessionId st) (token st)
          (store st)
          (ts ++ [Timer (match hists with [] => d | _ => 3000%N end) cl sid])
          (effects st ++ replicate (length hists) (HttpGetHistory sid (c_token cl))).
Proof.
  intros Ht Htok Hsid Hnew Hno. revert st d Ht Hno.
  induction hists as [|hist hists IH]; intros st d Ht Hno.
  - simpl. rewrite app_nil_r, <- Ht. by destruct st.
  - cbn [flat_map poll_round app]. unfold run. cbn [foldl].
    rewrite (timer_fires st ts d cl sid) by done.
    rewrite (poll_no_match _ ts cl sid hist) by (try done; apply Hno).
    cbn [messages input isLoading sessionId token store effects].
    match goal with |- context [foldl step ?s ?evs] =>
      fold (run s evs); rewrite (IH s 3000%N eq_refl Hno)
    end.
    cbn [messages input isLoading sessionId token store effects length replicate].
    rewrite <- app_assoc. simpl. by destruct hists.
Qed.

Lemma no_pending_never_updates (hist : list HistoryItem)
    (h : gmap loc (list Action)) (msgs : list Message) :
  no_pending h msgs → (reconcile hist h msgs).2 = false.
Proof.
  intros Hno. apply not_true_is_false. rewrite reconcile_updated_iff.
  intros (m & l & acts & k & p & a & Hin & _ & Hl & Hh & Hk & _).
  rewrite (Hno m l acts Hin Hl Hh) in Hk. done.
Qed.

(** X3.  The poll set by a reply scans the log as it was before the submit,
    not the log holding the reply.  Take a well-formed state whose log has no
    pending action, an accepted submit, and a reply that carries calendar
    actions and a session id.  Then however many times the poll runs and
    whatever the histories say, created entries for the new pending action
    included, nothing is ever replaced: the log and the store stay as the
    reply left them and the timer is set again each time. *)
Theorem poll_never_resolves_the_reply_that_set_it
    (st : State) (now now' : N) (data : ChatResponse) (sid : jsstring)
    (hists : list (list HistoryItem)) :
  state_wf st → no_pending (store st) (messages st) →
  forallb isWhiteSpace (input st) = false → isLoading st = false →
  truthy_opt (token st) = true →
  session_id data = Some sid → truthy sid = true → sid ≠ lit "new" →
  existsb is_calendar_action (default [] (r_actions data)) = true →
  let st1 := run st [EvSubmit now; EvPostReply (length (tasks st)) (Some data) now'] in
  let st2 := run st1 (flat_map (poll_round (length (tasks st))) hists) in
  (∃ l, messages st1 = messages st ++ [submitted_turn st now; reply_turn data now' l] ∧
        store st1 !! l = Some (default [] (r_actions data)) ∧
        store st2 !! l = Some (default [] (r_actions data))) ∧
  messages st2 = messages st1 ∧ store st2 = store st1 ∧
  tasks st2 = tasks st ++ [Timer 3000 (closure st) sid] ∧
  effects st2 = effects st1 ++ replicate (length hists) (HttpGetHistory sid (token st)).
Proof.
  intros [[Hnd Halloc] _] Hnop Hws Hl Htok Hsid Htr Hnew Hcal. cbv zeta.
  set (l := fresh (dom (store st))).
  assert (Hl0 : store st !! l = None) by (apply not_elem_of_dom, is_fresh).
  assert (Hst1 :
    run st [EvSubmit now; EvPostReply (length (tasks st)) (Some data) now'] =
    mkState (messages st ++ [submitted_turn st now; reply_turn data now' l])
            [] false (sessionId st) (token st)
            (<[l := default [] (r_actions data)]> (store st))
            (tasks st ++ [Timer 3000 (closure st) sid])
            ((effects st ++ [HttpPostChat (submitted_request st) (token st)]) ++
               (if strict_eq (sessionId st) (lit "new") && truthy_opt (session_id data)
                then [OnNewSession (default [] (session_id data))] else []))).
  { unfold run. cbn [foldl]. rewrite submit_accepted by done.
    rewrite (post_reply_success _ (length (tasks st)) (closure st))
      by (cbn [tasks]; by apply list_lookup_middle).
    cbn [messages input sessionId token store tasks effects closure c_sessionId].
    rewrite delete_middle, app_nil_r, Hcal, <- app_assoc. simpl.
    unfold poll_session. rewrite Hsid. simpl. rewrite Htr. done. }
  rewrite Hst1.
  rewrite (poll_rounds_no_match hists _ (tasks st) 3000 (closure st) sid);
    cbn [messages input isLoading sessionId token store tasks effects closure
         c_messages c_token]; try done.
  - split_and!; try done.
    + exists l. by rewrite lookup_insert_eq.
    + by destruct hists.
  - intros hist. apply no_pending_never_updates.
    intros m l' acts Hin Hl' Hh.
    assert (Hne : l ≠ l').
    { intros <-. destruct (Halloc l) as [x Hx]; [by eapply action_locs_elem|].
      congruence. }
    rewrite lookup_insert_ne in Hh by done. by eapply Hnop.
Qed.

Lemma poll_never_resolves_the_reply_that_set_it_witness :
  let st := mkState [] (lit "Schedule team sync") false (lit "s1") (Some (lit "t"))
                    ∅ [] [] in
  let st1 := run st [EvSubmit 1; EvPostReply 0 (reply_with "Scheduling." [sync_pending]) 2] in
  let st2 := run st1 (flat_map (poll_round 0) [sync_now_created; sync_now_created]) in
  messages st2 = messages st1 ∧ store st2 = store st1.
Proof.
  cbv zeta.
  destruct (poll_never_resolves_the_reply_that_set_it
              (mkState [] (lit "Schedule team sync") false (lit "s1") (Some (lit "t"))
                       ∅ [] [])
              1 2
              (mkChatResponse (lit "Scheduling.") (Some [sync_pending]) (Some (lit "s1")))
              (lit "s1") [sync_now_created; sync_now_created])
    as (_ & Hm & Hs & _).
  - split; [apply log_wf_nil|]. intros t Ht. inversion Ht.
  - intros m l acts Hin. inversion Hin.
  - reflexivity.
  - reflexivity.
  - reflexivity.
  - reflexivity.
  - reflexivity.
  - intros H. discriminate H.
  - reflexivity.
  - split; [exact Hm | exact Hs].
Defined.

(** X4.  A poll timer whose closure has no token, or whose session id is
    empty or ['new'] (the reply of a submit made in a new conversation came
    without a session id), ends silently when it fires: after the submit,
    its reply and the timer event, no task is left, and the only request
    ever issued is the chat request itself. *)
Theorem poll_without_token_or_session_ends_silently
    (st : State) (now now' : N) (data : ChatResponse) :
  forallb isWhiteSpace (input st) = false → isLoading st = false →
  truthy_opt (token st) = false ∨
    truthy (poll_session (closure st) data) = false ∨
    poll_session (closure st) data = lit "new" →
  let st' := run st [EvSubmit now;
                     EvPostReply (length (tasks st)) (Some data) now';
                     EvTimer (length (tasks st))] in
  tasks st' = tasks st ∧
  (∃ l, messages st' = messages st ++ [submitted_turn st now; reply_turn data now' l]) ∧
  ∀ e, e ∈ effects st' → e ∈ effects st ∨
         e = HttpPostChat (submitted_request st) (token st) ∨
         e = OnNewSession (default [] (session_id data)).
Proof.
  intros Hws Hl Hguard. cbv zeta.
  set (l := fresh (dom (store st))).
  set (eff := (effects st ++ [HttpPostChat (submitted_request st) (token st)]) ++
              (if strict_eq (sessionId st) (lit "new") && truthy_opt (session_id data)
               then [OnNewSession (default [] (session_id data))] else [])).
  assert (Hst1 :
    run st [EvSubmit now; EvPostReply (length (tasks st)) (Some data) now'] =
    mkState (messages st ++ [submitted_turn st now; reply_turn data now' l])
            [] false (sessionId st) (token st)
            (<[l := default [] (r_actions data)]> (store st))
            (tasks st ++
               (if existsb is_calendar_action (default [] (r_actions data))
                then [Timer 3000 (closure st) (poll_session (closure st) data)]
                else []))
            eff).
  { unfold run. cbn [foldl]. rewrite submit_accepted by done.
    rewrite (post_reply_success _ (length (tasks st)) (closure st))
      by (cbn [tasks]; by apply list_lookup_middle).
    cbn [messages input sessionId token store tasks effects].
    rewrite delete_middle, app_nil_r, <- app_assoc. done. }
  assert (Heff : ∀ e, e ∈ eff →
    e ∈ effects st ∨ e = HttpPostChat (submitted_request st) (token st) ∨
    e = OnNewSession (default [] (session_id data))).
  { intros e He. apply elem_of_app in He as [He|He].
    - apply elem_of_app in He as [He|He]; [by left|].
      apply list_elem_of_singleton in He. tauto.
    - destruct (strict_eq (sessionId st) (lit "new") && truthy_opt (session_id data)).
      + apply list_elem_of_singleton in He. tauto.
      + by apply elem_of_nil in He. }
  assert (Hg : negb (truthy_opt (c_token (closure st)))
               || negb (truthy (poll_session (closure st) data))
               || strict_eq (poll_session (closure st) data) (lit "new") = true).
  { destruct Hguard as [H|[H|H]].
    - cbn [closure c_token]. by rewrite H.
    - rewrite H. simpl. by rewrite orb_true_r.
    - unfold strict_eq. rewrite (bool_decide_true _ H). by rewrite orb_true_r. }
  change (run st [EvSubmit now; EvPostReply (length (tasks st)) (Some data) now';
                  EvTimer (length (tasks st))])
    with (step (run st [EvSubmit now; EvPostReply (length (tasks st)) (Some data) now'])
               (EvTimer (length (tasks st)))).
  rewrite Hst1. clearbody eff l.
  destruct (existsb is_calendar_action (default [] (r_actions data))).
  - cbn [step tasks]. rewrite list_lookup_middle by done.
    unfold checkCalendarEventStatus. rewrite Hg.
    unfold take_task, set_tasks. cbn [tasks messages effects].
    rewrite delete_middle, app_nil_r.
    split_and!; [done|by eexists|exact Heff].
  - rewrite app_nil_r. cbn [step tasks].
    rewrite (lookup_ge_None_2 (tasks st) (length (tasks st))) by lia.
    cbn [tasks messages effects]. split_and!; [done|by eexists|exact Heff].
Qed.

Lemma poll_without_token_or_session_ends_silently_witness :
  tasks (run (mkState [] (lit "Schedule team sync") false (lit "new") (Some (lit "t"))
                      ∅ [] [])
             [EvSubmit 1;
              EvPostReply 0 (Some (mkChatResponse (lit "Scheduling.")
                                     (Some [sync_pending]) None)) 2;
              EvTimer 0])
  = [].
Proof.
  apply (poll_without_token_or_session_ends_silently
           (mkState [] (lit "Schedule team sync") false (lit "new") (Some (lit "t"))
                    ∅ [] [])
           1 2 (mkChatResponse (lit "Scheduling.") (Some [sync_pending]) None)
           eq_refl eq_refl).
  right. right. reflexivity.
Defined.

(** X5.  A poll that finds a match is the last of its chain: it replaces
    the log by its snapshot, writes the arrays, sets no timer and issues no
    request.  If it was the only task, no later timer or reply event changes
    anything, so a pending action of the snapshot that found no match in
    that history stays pending. *)
Theorem matching_poll_sets_no_further_timer
    (st : State) (cl : Closure) (sid : jsstring) (hist : list HistoryItem)
    (evs : list Event) :
  tasks st = [AwaitGet cl sid] →
  (reconcile hist (store st) (c_messages cl)).2 = true →
  Forall completion evs →
  let st' := step st (EvGetReply 0 (Some hist)) in
  tasks st' = [] ∧ effects st' = effects st ∧
  messages st' = c_messages cl ∧
  store st' = (reconcile hist (store st) (c_messages cl)).1 ∧
  run st' evs = st'.
Proof.
  intros Ht Hupd Hall. cbv zeta.
  assert (Hstep : step st (EvGetReply 0 (Some hist)) =
    mkState (c_messages cl) (input st) (isLoading st) (sessionId st) (token st)
            (reconcile hist (store st) (c_messages cl)).1 [] (effects st)).
  { cbn [step]. rewrite Ht. cbn [lookup list_lookup].
    unfold checkCalendarEventStatus_resume. cbn [take_task set_tasks store].
    destruct (reconcile hist (store st) (c_messages cl)) as [h updated].
    simpl in Hupd. subst updated.
    unfold setMessages, set_store, take_task, set_tasks. simpl. by rewrite Ht. }
  rewrite Hstep. split_and!; try done. by apply run_without_tasks.
Qed.

Lemma matching_poll_sets_no_further_timer_witness :
  let st := mkState [assistant_turn "ok" 0] [] false (lit "s1") (Some (lit "t"))
                    {[0 := [sync_pending; lunch_pending]]}
                    [AwaitGet stale_closure (lit "s1")] [] in
  let st' := step st (EvGetReply 0 (Some sync_now_created)) in
  tasks st' = [] ∧
  store st' = {[0 := [sync_created; lunch_pending]]} ∧
  run st' [EvTimer 0; EvGetReply 0 (Some [history_item 2 [lunch_created]])] = st'.
Proof.
  cbv zeta.
  destruct (matching_poll_sets_no_further_timer
              (mkState [assistant_turn "ok" 0] [] false (lit "s1") (Some (lit "t"))
                       {[0 := [sync_pending; lunch_pending]]}
                       [AwaitGet stale_closure (lit "s1")] [])
              stale_closure (lit "s1") sync_now_created
              [EvTimer 0; EvGetReply 0 (Some [history_item 2 [lunch_created]])])
    as (Ht & _ & _ & Hs & Hr).
  - reflexivity.
  - vm_compute. reflexivity.
  - repeat constructor.
  - split_and!; [exact Ht | rewrite Hs; vm_compute; reflexivity | exact Hr].
Defined.

(** ** The submit button and the requests in flight *)

(** X6.  The submit button is disabled exactly when a submit would do
    nothing: [handleSendMessage] leaves the state unchanged if and only if
    the expression of the [disabled] attribute is true. *)
Theorem submit_is_noop_iff_button_disabled (st : State) (now : N) :
  submit_disabled st = true ↔ step st (EvSubmit now) = st.
Proof.
  unfold submit_disabled. split.
  - intros H. simpl. unfold handleSendMessage. simpl.
    by rewrite orb_comm, H.
  - intros Hstep. destruct (isLoading st) eqn:Hl; [done|]. simpl.
    destruct (truthy (trim (input st))) eqn:Ht; [|done]. exfalso.
    assert (Hws : forallb isWhiteSpace (input st) = false).
    { apply not_true_is_false. intros Hws. apply trim_nil_iff in Hws.
      rewrite Hws in Ht. done. }
    rewrite submit_accepted in Hstep by done.
    apply (f_equal (λ s, length (messages s))) in Hstep. simpl in Hstep.
    rewrite length_app in Hstep. simpl in Hstep. lia.
Qed.

Lemma filter_post_delete (ts : list Task) (k : nat) (t : Task) :
  ts !! k = Some t →
  length (List.filter is_post ts) =
  (if is_post t then 1 else 0) + length (List.filter is_post (delete k ts)).
Proof.
  revert k. induction ts as [|t0 ts IH]; intros k Hk; [done|].
  destruct k as [|k]; simpl in Hk.
  - injection Hk as ->. simpl. by destruct (is_post t).
  - pose proof (IH k Hk) as IHk. simpl. simpl in IHk.
    destruct (is_post t0); simpl; lia.
Qed.

Lemma filter_post_snoc (ts : list Task) (t : Task) :
  length (List.filter is_post (ts ++ [t])) =
  length (List.filter is_post ts) + (if is_post t then 1 else 0).
Proof.
  rewrite List.filter_app, length_app. simpl. by destruct (is_post t).
Qed.

Lemma posts_in_flight_step (st : State) (ev : Event) :
  posts_in_flight st = (if isLoading st then 1 else 0) →
  posts_in_flight (step st ev) = (if isLoading (step st ev) then 1 else 0).
Proof.
  unfold posts_in_flight. intros Hinv.
  destruct ev as [s|now|sid|k|k reply now|k reply].
  - done.
  - simpl. unfold handleSendMessage. simpl.
    destruct (negb (truthy (trim (input st))) || isLoading st) eqn:Hg; [done|].
    apply orb_false_iff in Hg as [_ Hl]. rewrite Hl in Hinv. simpl.
    rewrite filter_post_snoc, Hinv. done.
  - simpl. case_bool_decide; [done|]. unfold session_effect, fetchChatHistory. simpl.
    destruct (truthy sid && negb (strict_eq sid (lit "new"))); [|done].
    destruct (negb (truthy_opt (token st))); [done|]. simpl.
    rewrite filter_post_snoc. simpl. lia.
  - simpl.
    destruct (tasks st !! k) as [[d cl sidk|cl|cl sidk|cl]|] eqn:Hk; try done.
    pose proof (filter_post_delete _ _ _ Hk) as Hd. simpl in Hd.
    unfold checkCalendarEventStatus.
    destruct (negb (truthy_opt (c_token cl)) || negb (truthy sidk)
              || strict_eq sidk (lit "new")); simpl.
    + lia.
    + rewrite filter_post_snoc. simpl. lia.
  - destruct (tasks st !! k) as [[d cl sidk|cl|cl sidk|cl]|] eqn:Hk;
      try (simpl; by rewrite Hk).
    pose proof (filter_post_delete _ _ _ Hk) as Hd. simpl in Hd.
    assert (Hzero : length (List.filter is_post (delete k (tasks st))) = 0).
    { destruct (isLoading st); simpl in *; lia. }
    destruct reply as [data|].
    + rewrite (post_reply_success st k cl data now Hk). simpl.
      destruct (existsb is_calendar_action (default [] (r_actions data))).
      * rewrite filter_post_snoc. simpl in *. lia.
      * by rewrite app_nil_r.
    + simpl. rewrite Hk. simpl. done.
  - simpl.
    destruct (tasks st !! k) as [[d cl sidk|cl|cl sidk|cl]|] eqn:Hk; try done.
    + pose proof (filter_post_delete _ _ _ Hk) as Hd. simpl in Hd.
      destruct reply as [hist|]; simpl; [|lia].
      unfold checkCalendarEventStatus_resume. simpl.
      destruct (reconcile hist (store st) (c_messages cl)) as [h updated].
      destruct updated; simpl; [lia|]. rewrite filter_post_snoc. simpl. lia.
    + pose proof (filter_post_delete _ _ _ Hk) as Hd. simpl in Hd.
      destruct reply as [history|]; simpl; [|lia].
      unfold fetchChatHistory_resume. simpl.
      destruct (format_history history (store st)) as [ms h]. simpl. lia.
Qed.

(** X7.  In every state reachable from the first mount, a chat request is
    waiting for its reply exactly while [isLoading] is true, and there is
    never more than one: the guard of [handleSendMessage] lets no second
    submit through before the reply, or the failure, of the first. *)
Theorem at_most_one_chat_request_in_flight (tok : option jsstring) (evs : list Event) :
  posts_in_flight (run (initial tok) evs) =
    (if isLoading (run (initial tok) evs) then 1 else 0) ∧
  posts_in_flight (run (initial tok) evs) ≤ 1.
Proof.
  assert (Hrun : ∀ st, posts_in_flight st = (if isLoading st then 1 else 0) →
            posts_in_flight (run st evs) = (if isLoading (run st evs) then 1 else 0)).
  { induction evs as [|ev evs IH]; intros st Hst; [done|].
    unfold run. cbn [foldl]. apply IH. by apply posts_in_flight_step. }
  assert (H := Hrun (initial tok) eq_refl). split; [done|].
  rewrite H. destruct (isLoading (run (initial tok) evs)); lia.
Qed.

(** ** Loading a conversation *)

Lemma format_history_turns (history : list HistoryItem) (h : gmap loc (list Action)) :
  Forall2 (λ m item, ∃ l, m = history_turn item l ∧ h !! l = None ∧
             (format_history history h).2 !! l = Some (default [] (h_actions item)))
          (format_history history h).1 history.
Proof.
  revert h. induction history as [|msg rest IH]; intros h; [constructor|].
  cbn [format_history]. unfold alloc.
  set (l0 := fresh (dom h)).
  set (h0 := <[l0 := default [] (h_actions msg)]> h).
  assert (Hl0 : h !! l0 = None) by (apply not_elem_of_dom, is_fresh).
  pose proof (IH h0) as Hrest.
  destruct (format_history_spec rest h0) as (_ & _ & Hold).
  destruct (format_history rest h0) as [ms h1]. simpl in *.
  constructor.
  - exists l0. split_and!; [done..|].
    rewrite Hold; unfold h0; rewrite lookup_insert_eq; by eexists.
  - eapply Forall2_impl; [exact Hrest|]. simpl.
    intros m item (l & -> & Hn & Hs). exists l. split_and!; [done| |done].
    destruct (decide (l0 = l)) as [<-|Hne]; [done|].
    unfold h0 in Hn. by rewrite lookup_insert_ne in Hn.
Qed.

(** X8.  When the history of a conversation comes in, the log is replaced
    as a whole by one turn per history item, in the order of the reply, each
    with the id, type, content and time of its item and a newly allocated
    array holding the actions of the item (empty when it has none);
    whatever the log held, optimistic turns included, is gone, arrays
    allocated before are untouched, and this happens whichever session is
    active by then.  When the request fails the log is left as it is. *)
Theorem history_reply_replaces_the_log
    (st : State) (k : nat) (cl : Closure) (history : list HistoryItem) :
  tasks st !! k = Some (AwaitHistory cl) →
  let st' := step st (EvGetReply k (Some history)) in
  Forall2 (λ m item, ∃ l, m = history_turn item l ∧ store st !! l = None ∧
             store st' !! l = Some (default [] (h_actions item)))
          (messages st') history ∧
  NoDup (action_locs (messages st')) ∧
  (∀ l, is_Some (store st !! l) → store st' !! l = store st !! l) ∧
  tasks st' = delete k (tasks st) ∧ effects st' = effects st ∧
  sessionId st' = sessionId st ∧
  step st (EvGetReply k None) = take_task k st.
Proof.
  intros Hk. cbv zeta. cbn [step]. rewrite Hk.
  unfold fetchChatHistory_resume. cbn [take_task set_tasks store].
  pose proof (format_history_turns history (store st)) as Hturns.
  destruct (format_history_spec history (store st)) as (Hnd & _ & Hold).
  destruct (format_history history (store st)) as [ms h]. simpl in *.
  split_and!; done.
Qed.

Lemma history_reply_replaces_the_log_witness :
  tasks (step (mkState [user_turn "draft"] [] false (lit "s1") (Some (lit "t")) ∅
                       [AwaitHistory stale_closure] [])
              (EvGetReply 0 (Some [history_item 1 [sync_created]]))) = [] ∧
  NoDup (action_locs
    (messages (step (mkState [user_turn "draft"] [] false (lit "s1") (Some (lit "t")) ∅
                             [AwaitHistory stale_closure] [])
                    (EvGetReply 0 (Some [history_item 1 [sync_created]]))))).
Proof.
  destruct (history_reply_replaces_the_log
              (mkState [user_turn "draft"] [] false (lit "s1") (Some (lit "t")) ∅
                       [AwaitHistory stale_closure] [])
              0 stale_closure [history_item 1 [sync_created]] eq_refl)
    as (_ & Hnd & _ & Ht & _).
  split; [exact Ht | exact Hnd].
Defined.

(** X9.  What a change of the [sessionId] property does.  To ['new'] or to
    the empty id: the log is emptied and no request is issued.  To another
    id, with a token: one history request for that id is issued and the log
    is left as it is until the reply.  To another id, without a token:
    nothing happens at all, so the log of the previous conversation stays on
    display. *)
Theorem session_change_clears_or_reloads (st : State) (sid : jsstring) :
  sid ≠ sessionId st →
  let st' := step st (EvSession sid) in
  sessionId st' = sid ∧ store st' = store st ∧
  (sid = [] ∨ sid = lit "new" →
     messages st' = [] ∧ tasks st' = tasks st ∧ effects st' = effects st) ∧
  (sid ≠ [] → sid ≠ lit "new" → truthy_opt (token st) = true →
     messages st' = messages st ∧
     effects st' = effects st ++ [HttpGetHistory sid (token st)] ∧
     ∃ cl, tasks st' = tasks st ++ [AwaitHistory cl]) ∧
  (sid ≠ [] → sid ≠ lit "new" → truthy_opt (token st) = false →
     messages st' = messages st ∧ tasks st' = tasks st ∧ effects st' = effects st).
Proof.
  intros Hne. cbv zeta. cbn [step]. rewrite bool_decide_false by done.
  unfold session_effect, fetchChatHistory, strict_eq. simpl.
  split_and!.
  - destruct (truthy sid && negb (bool_decide (sid = lit "new"))); [|done].
    by destruct (negb (truthy_opt (token st))).
  - destruct (truthy sid && negb (bool_decide (sid = lit "new"))); [|done].
    by destruct (negb (truthy_opt (token st))).
  - intros [->| ->]; done.
  - intros Hnil Hnew Htok.
    assert (Ht : truthy sid = true) by (by destruct sid).
    rewrite Ht, bool_decide_false, Htok by done. simpl. split_and!; try done.
    by eexists.
  - intros Hnil Hnew Htok.
    assert (Ht : truthy sid = true) by (by destruct sid).
    rewrite Ht, bool_decide_false, Htok by done. done.
Qed.

Lemma session_change_clears_or_reloads_witness :
  sessionId (step (polling_state (Timer 3000 stale_closure (lit "s1")))
                  (EvSession (lit "new"))) = lit "new".
Proof.
  apply (session_change_clears_or_reloads
           (polling_state (Timer 3000 stale_closure (lit "s1"))) (lit "new")).
  intros H. discriminate H.
Defined.

(** ** What the user sees of a resolved action *)

(** X10.  When a poll replaces a pending action by the created action it
    found for it, the card of the action changes from "Creating Event..." to
    "Event Created" and keeps its title.  Both actions have details, with
    the same summary, and the title of both cards is that summary when it is
    present and not empty, and the word "Event" otherwise. *)
Theorem resolved_action_card_keeps_its_title
    (hist : list HistoryItem) (p a : Action) :
  is_pending p = true → scan_history hist p = Some a →
  ∃ dp da title times place times' place' desc link,
    details p = Some dp ∧ details a = Some da ∧ summary da = summary dp ∧
    title = match summary dp with
            | Some (c :: s) => c :: s
            | Some [] | None => lit "Event"
            end ∧
    renderCalendarAction p = Some (CreatingEvent title times place) ∧
    renderCalendarAction a = Some (EventCreated title times' place' desc link).
Proof.
  intros Hp Ha. apply scan_history_created in Ha as [_ Hm].
  apply is_created_match_spec in Hm as (Hta & da & dp & Hda & Hdp & Hs).
  unfold is_pending, strict_eq in Hp. apply bool_decide_eq_true in Hp.
  unfold renderCalendarAction. rewrite Hp, Hta.
  change (strict_eq calendar_event_pending calendar_event_created) with false.
  change (strict_eq calendar_event_pending calendar_event_needs_auth) with false.
  change (strict_eq calendar_event_pending calendar_event_failed) with false.
  change (strict_eq calendar_event_pending calendar_event_pending) with true.
  change (strict_eq calendar_event_created calendar_event_created) with true.
  cbv iota. unfold details_field. rewrite Hda, Hdp. simpl. rewrite Hs.
  exists dp, da. destruct (summary dp) as [[|c s]|];
    do 7 eexists; split_and!; done.
Qed.

Lemma resolved_action_card_keeps_its_title_witness :
  ∃ times place times' place' desc link,
    renderCalendarAction sync_pending =
      Some (CreatingEvent (lit "team sync") times place) ∧
    renderCalendarAction sync_created =
      Some (EventCreated (lit "team sync") times' place' desc link).
Proof.
  destruct (resolved_action_card_keeps_its_title
              sync_now_created sync_pending sync_created eq_refl eq_refl)
    as (dp & da & title & times & place & times' & place' & desc & link
        & Hdp & _ & _ & Ht & Hp & Ha).
  injection Hdp as <-. simpl in Ht. subst title.
  exists times, place, times', place', desc, link. by split.
Defined.

(** ** What never happens to the log and to the arrays *)

(** X11.  Typing, submitting, the reply or the failure of a submit and a
    timer firing never remove, reorder or rewrite a turn: the log before the
    event is a prefix of the log after it.  Only the reply of a poll or of a
    history request, and a change of session, can replace the log. *)
Theorem dispatcher_only_appends_to_the_log (st : State) (ev : Event) :
  dispatcher_event ev → messages st `prefix_of` messages (step st ev).
Proof.
  assert (Hsame : ∀ st', messages st' = messages st →
            messages st `prefix_of` messages st').
  { intros st' ->. exists []. by rewrite app_nil_r. }
  intros Hev. destruct ev as [s|now|sid|k|k reply now|k reply];
    [| | destruct Hev | | | destruct Hev].
  - by apply Hsame.
  - simpl. unfold handleSendMessage.
    destruct (negb (truthy (trim (c_input (closure st)))) || c_isLoading (closure st)).
    + by apply Hsame.
    + simpl. by eexists.
  - apply Hsame. simpl.
    destruct (tasks st !! k) as [[d cl sidk|cl|cl sidk|cl]|]; try done.
    unfold checkCalendarEventStatus.
    by destruct (negb (truthy_opt (c_token cl)) || negb (truthy sidk)
                 || strict_eq sidk (lit "new")).
  - destruct (tasks st !! k) as [[d cl sidk|cl|cl sidk|cl]|] eqn:Hk;
      try (apply Hsame; simpl; by rewrite Hk).
    destruct reply as [data|].
    + rewrite (post_reply_success st k cl data now Hk). simpl. by eexists.
    + simpl. rewrite Hk. simpl. by eexists.
Qed.

Lemma dispatcher_only_appends_to_the_log_witness :
  [user_turn "hi"] `prefix_of`
  messages (step (mkState [user_turn "hi"] (lit "more") false (lit "s1")
                          (Some (lit "t")) ∅ [] []) (EvSubmit 7)).
Proof.
  apply (dispatcher_only_appends_to_the_log
           (mkState [user_turn "hi"] (lit "more") false (lit "s1")
                    (Some (lit "t")) ∅ [] []) (EvSubmit 7) I).
Defined.

Lemma resolves_to_trans (x y z : Action) :
  resolves_to x y → resolves_to y z → resolves_to x z.
Proof.
  intros [->|[Hp Hm]] Hyz; [done|]. destruct Hyz as [<-|[Hp' _]]; [by right|].
  apply is_created_match_spec in Hm as [Ht _].
  rewrite (created_not_pending _ Ht) in Hp'. done.
Qed.

Lemma Forall2_resolves_to_refl (acts : list Action) : Forall2 resolves_to acts acts.
Proof. induction acts; constructor; [by left | done]. Qed.

Lemma foldr_changes_by_resolution hist msgs st l acts :
  st.1 !! l = Some acts →
  ∃ acts', (foldr (process_message hist) st msgs).1 !! l = Some acts' ∧
           Forall2 resolves_to acts acts'.
Proof.
  intros Hl. induction msgs as [|m msgs IH]; simpl.
  - exists acts. split; [done | apply Forall2_resolves_to_refl].
  - destruct IH as (acts1 & H1 & HR).
    destruct (process_inv hist m (foldr (process_message hist) st msgs))
      as [->|(l0&acts0&k&p&a&Hres&->)]; [by exists acts1|].
    destruct Hres as (_ & _ & Hh & Hk & Hp & Ha). simpl.
    destruct (decide (l0 = l)) as [->|Hne].
    + rewrite lookup_insert_eq. rewrite H1 in Hh. injection Hh as <-.
      eexists. split; [done|].
      eapply Forall2_trans; [apply resolves_to_trans | exact HR |].
      rewrite <- (list_insert_id acts1 k p Hp) at 1.
      apply Forall2_insert; [apply Forall2_resolves_to_refl|].
      right. apply findIndex_Some in Hk as (x & Hx & Hpend & _).
      rewrite Hp in Hx. injection Hx as <-. split; [done|].
      by apply scan_history_created in Ha as [_ ?].
    + rewrite lookup_insert_ne by done. by exists acts1.
Qed.

Lemma step_changes_by_resolution (st : State) (ev : Event) l acts :
  store st !! l = Some acts →
  ∃ acts', store (step st ev) !! l = Some acts' ∧ Forall2 resolves_to acts acts'.
Proof.
  intros Hl.
  assert (Hsame : ∀ st', store st' = store st →
            ∃ acts', store st' !! l = Some acts' ∧ Forall2 resolves_to acts acts').
  { intros st' ->. exists acts. split; [done | apply Forall2_resolves_to_refl]. }
  destruct ev as [s|now|sid|k|k reply now|k reply].
  - by apply Hsame.
  - apply Hsame. simpl. unfold handleSendMessage.
    by destruct (negb (truthy (trim (c_input (closure st)))) || c_isLoading (closure st)).
  - apply Hsame, session_switch_keeps_store.
  - apply Hsame. simpl.
    destruct (tasks st !! k) as [[d cl sidk|cl|cl sidk|cl]|]; try done.
    unfold checkCalendarEventStatus.
    by destruct (negb (truthy_opt (c_token cl)) || negb (truthy sidk)
                 || strict_eq sidk (lit "new")).
  - destruct (tasks st !! k) as [[d cl sidk|cl|cl sidk|cl]|] eqn:Hk;
      try (apply Hsame; simpl; by rewrite Hk).
    destruct reply as [data|]; [|apply Hsame; simpl; by rewrite Hk].
    rewrite (post_reply_success st k cl data now Hk). simpl.
    exists acts. split; [|apply Forall2_resolves_to_refl].
    rewrite lookup_insert_ne; [done|]. intros Heq.
    assert (Hf : store st !! fresh (dom (store st)) = None)
      by (apply not_elem_of_dom, is_fresh).
    rewrite Heq in Hf. congruence.
  - simpl. destruct (tasks st !! k) as [[d cl sidk|cl|cl sidk|cl]|] eqn:Hk;
      try (by apply Hsame).
    + destruct reply as [hist|]; [|by apply Hsame].
      unfold checkCalendarEventStatus_resume. simpl.
      destruct (foldr_changes_by_resolution hist (c_messages cl) (store st, false) l acts Hl)
        as (acts' & H' & HR).
      rewrite <- reconcile_foldr in H'.
      destruct (reconcile hist (store st) (c_messages cl)) as [h updated].
      simpl in H'. exists acts'. by destruct updated.
    + destruct reply as [history|]; [|by apply Hsame].
      unfold fetchChatHistory_resume. simpl.
      destruct (format_history_spec history (store st)) as (_ & _ & Hold).
      destruct (format_history history (store st)) as [ms h]. simpl in *.
      exists acts. split; [|apply Forall2_resolves_to_refl].
      rewrite Hold; [done | by eexists].
Qed.

(** X12.  Whatever happens, an action array, once allocated, stays
    allocated and keeps its length and the order of its actions; the only
    change ever made to one of its positions is the replacement of a pending
    action by a created action that matches it.  Nothing is ever removed
    from, added to or moved within an array, and an action that is not
    pending is never touched. *)
Theorem arrays_change_only_by_resolution
    (st : State) (evs : list Event) (l : loc) (acts : list Action) :
  store st !! l = Some acts →
  ∃ acts', store (run st evs) !! l = Some acts' ∧
           Forall2 resolves_to acts acts' ∧ length acts' = length acts.
Proof.
  revert st acts. induction evs as [|ev evs IH]; intros st acts Hl.
  - exists acts. split_and!; [done | apply Forall2_resolves_to_refl | done].
  - unfold run. cbn [foldl]. fold (run (step st ev) evs).
    destruct (step_changes_by_resolution st ev l acts Hl) as (acts1 & H1 & HR1).
    destruct (IH _ _ H1) as (acts2 & H2 & HR2 & Hlen).
    exists acts2. split_and!; [done| |].
    + eapply Forall2_trans; [apply resolves_to_trans | exact HR1 | exact HR2].
    + rewrite Hlen. symmetry. by eapply Forall2_length.
Qed.

Lemma arrays_change_only_by_resolution_witness :
  ∃ acts', store (run after_two_exchanges
                      [EvTimer 1; EvGetReply 1 (Some sync_now_created)]) !! 0
             = Some acts' ∧
           Forall2 resolves_to [sync_pending] acts' ∧ length acts' = 1.
Proof.
  apply (arrays_change_only_by_resolution after_two_exchanges
           [EvTimer 1; EvGetReply 1 (Some sync_now_created)] 0 [sync_pending]).
  vm_compute. reflexivity.
Defined.

(** * The event form *)

Lemma insert_size_not_0 (m : gmap EventForm.Field (option jsstring)) f v :
  bool_decide (size (<[f := v]> m) = 0) = false.
Proof.
  apply bool_decide_eq_false. rewrite map_size_empty_iff. apply insert_non_empty.
Qed.

(** X13.  [handleSubmit] calls [onSubmit] exactly when the title has a
    character that is not white space, both times are non-empty, and it is
    not the case that both times parse with the end at or before the start.
    A time that does not parse is therefore let through.  When it calls
    [onSubmit] the errors are cleared and the text fields are handed over
    unchanged; when it does not, at least one error is recorded. *)
Theorem EventForm_submit_calls_onSubmit_iff_valid
    (date_value : jsstring → option Z) (st : EventForm.FormState) :
  let fd := EventForm.formData st in
  let r := EventForm.handleSubmit date_value st in
  ((∃ s, r.2 = Some s) ↔
     forallb isWhiteSpace (EventForm.summary fd) = false ∧
     EventForm.start_datetime fd ≠ [] ∧ EventForm.end_datetime fd ≠ [] ∧
     ¬ (∃ x y, date_value (EventForm.start_datetime fd) = Some x ∧
               date_value (EventForm.end_datetime fd) = Some y ∧ (y ≤ x)%Z)) ∧
  (∀ s, r.2 = Some s →
     EventForm.errors r.1 = ∅ ∧
     EventForm.s_summary s = EventForm.summary fd ∧
     EventForm.s_description s = EventForm.description fd ∧
     EventForm.s_location s = EventForm.location fd ∧
     EventForm.s_timezone s = EventForm.timezone fd) ∧
  (r.2 = None → EventForm.errors r.1 ≠ ∅) ∧
  EventForm.formData r.1 = fd.
Proof.
  cbv zeta. unfold EventForm.handleSubmit, EventForm.validateForm.
  set (fd := EventForm.formData st).
  assert (Hblank : negb (truthy (trim (EventForm.summary fd))) = false ↔
                   forallb isWhiteSpace (EventForm.summary fd) = false).
  { rewrite negb_false_iff. split.
    - intros Ht. apply not_true_is_false. intros Hws.
      apply trim_nil_iff in Hws. rewrite Hws in Ht. done.
    - intros Hws. destruct (trim (EventForm.summary fd)) eqn:Et; [|done].
      apply trim_nil_iff in Et. congruence. }
  assert (Hge : EventForm.date_ge date_value (EventForm.start_datetime fd)
                                  (EventForm.end_datetime fd) = false ↔
            ¬ (∃ x y, date_value (EventForm.start_datetime fd) = Some x ∧
                      date_value (EventForm.end_datetime fd) = Some y ∧ (y ≤ x)%Z)).
  { unfold EventForm.date_ge.
    destruct (date_value (EventForm.start_datetime fd)) as [x|];
      destruct (date_value (EventForm.end_datetime fd)) as [y|].
    - rewrite bool_decide_eq_false. split.
      + intros Hn (x' & y' & [= <-] & [= <-] & Hle). done.
      + intros Hn Hle. apply Hn. by exists x, y.
    - split; [|done]. by intros _ (? & ? & _ & ? & _).
    - split; [|done]. by intros _ (? & ? & ? & _).
    - split; [|done]. by intros _ (? & ? & ? & _). }
  assert (Hstart : negb (truthy (EventForm.start_datetime fd)) = false ↔
                   EventForm.start_datetime fd ≠ []).
  { by destruct (EventForm.start_datetime fd). }
  assert (Hend : negb (truthy (EventForm.end_datetime fd)) = false ↔
                 EventForm.end_datetime fd ≠ []).
  { by destruct (EventForm.end_datetime fd). }
  destruct (negb (truthy (trim (EventForm.summary fd)))) eqn:E1;
    destruct (negb (truthy (EventForm.start_datetime fd))) eqn:E2;
    destruct (negb (truthy (EventForm.end_datetime fd))) eqn:E3;
    destruct (EventForm.date_ge date_value (EventForm.start_datetime fd)
                                (EventForm.end_datetime fd)) eqn:E4;
    rewrite ?insert_size_not_0; simpl;
    (split_and!;
     [ split;
       [ try (by intros [? ?]); intros _; repeat split; tauto
       | intros (H1 & H2 & H3 & H4);
         try (apply Hblank in H1; discriminate H1);
         try (apply Hstart in H2; discriminate H2);
         try (apply Hend in H3; discriminate H3);
         try (apply Hge in H4; discriminate H4);
         by eexists ]
     | try done; by intros s [= <-]
     | try done; intros _; apply insert_non_empty
     | done ]).
Qed.

(** X14.  [handleChange] writes the new value into the edited field and
    leaves every other field of the form as it was.  It clears the error of
    the edited field, whatever the new value (nothing is validated again
    until the next submit), and leaves the errors of the other fields as
    they were. *)
Theorem EventForm_change_touches_one_field
    (name : EventForm.Field) (value : jsstring) (st : EventForm.FormState) :
  let st' := EventForm.handleChange name value st in
  EventForm.get (EventForm.formData st') name = value ∧
  (∀ f, f ≠ name →
     EventForm.get (EventForm.formData st') f = EventForm.get (EventForm.formData st) f) ∧
  EventForm.timezone (EventForm.formData st') = EventForm.timezone (EventForm.formData st) ∧
  EventForm.error_shown (EventForm.errors st') name = false ∧
  (∀ f, f ≠ name → EventForm.errors st' !! f = EventForm.errors st !! f).
Proof.
  cbv zeta. unfold EventForm.handleChange. simpl. split_and!.
  - by destruct name.
  - intros f Hf. by destruct name, f.
  - by destruct name.
  - destruct (EventForm.error_shown (EventForm.errors st) name) eqn:E; [|done].
    unfold EventForm.error_shown. by rewrite lookup_insert_eq.
  - intros f Hf.
    destruct (EventForm.error_shown (EventForm.errors st) name); [|done].
    by rewrite lookup_insert_ne.
Qed.

(** * The list of events *)

(** X15.  [getEventTimeDisplay] throws exactly for an event that has a
    start time but no [end] object (and is not an all-day event).  An event
    whose start has a [date] is shown as an all-day event, formatted from
    that date, whatever else it holds; an event with neither a date nor a
    non-empty start time is shown as "Time not specified". *)
Theorem EventList_time_display_cases
    (formatDateTime formatDate toDateString toLocaleTimeString
       : option jsstring → jsstring) (event : EventList.CalendarEvent) :
  let display := EventList.getEventTimeDisplay formatDateTime formatDate
                   toDateString toLocaleTimeString event in
  (display = None ↔
     EventList.start event ≫= EventList.date = None ∧
     truthy_opt (EventList.start event ≫= EventList.dateTime) = true ∧
     EventList.end_ event = None) ∧
  (∀ d, EventList.start event ≫= EventList.date = Some d →
     display = Some (lit "All Day " ++ [183%N] ++ lit " " ++ formatDate (Some d))) ∧
  (EventList.start event ≫= EventList.date = None →
   truthy_opt (EventList.start event ≫= EventList.dateTime) = false →
     display = Some (lit "Time not specified")).
Proof.
  cbv zeta. unfold EventList.getEventTimeDisplay, EventList.isAllDayEvent.
  destruct (EventList.start event ≫= EventList.date) as [d|] eqn:Hd.
  - split_and!; [|by intros d' [= <-]|done].
    split; [done | by intros [? _]].
  - destruct (truthy_opt (EventList.start event ≫= EventList.dateTime)) eqn:Ht.
    + split_and!; [|done|done].
      destruct (EventList.end_ event) as [e|].
      * split; [|by intros (_ & _ & ?)].
        by destruct (negb (strict_eq _ _)).
      * done.
    + split_and!; [|done|done]. split; [done | by intros (_ & ? & _)].
Qed.

(** * The dashboard *)

Lemma filter_drops_session (sid : jsstring) (l : list Dashboard.Session) :
  sid ∉ map Dashboard.session_id
        (List.filter (λ s, negb (strict_eq (Dashboard.session_id s) sid)) l).
Proof.
  intros Hin. apply list_elem_of_fmap in Hin as (s & -> & Hs).
  apply list_elem_of_In, filter_In in Hs as [_ Hs].
  unfold strict_eq in Hs. by rewrite bool_decide_true in Hs.
Qed.

(** X16.  Deleting a conversation.  The handler keeps the id of the
    conversation that was active, and the token, of the render in which the
    button was clicked.  The click opens the dialog.  When the dialog is
    dismissed no request is issued and nothing changes; when it is confirmed
    one deletion request is issued, with the token of the click.  When the
    request succeeds, in whatever state the reply arrives, the list of
    conversations is the list of that moment without the entries of the
    deleted id, the others keeping their order, and the active conversation
    becomes ['new'] exactly when the conversation that was active at the
    click is the deleted one; otherwise it is left as the reply finds it.
    When the request fails the list and the active conversation stay as they
    are.  So when nothing happens between the click, the confirmation and
    the reply, the active conversation afterwards is not the deleted one;
    but a conversation selected while its deletion is in flight stays active
    after it has been removed from the list. *)
Theorem Dashboard_delete_session (st : Dashboard.State) (sid : jsstring) :
  let k := length (Dashboard.tasks st) in
  let deleted := Dashboard.run st [Dashboard.EvDeleteClick sid;
                                   Dashboard.EvConfirm k true;
                                   Dashboard.EvDeleteReply k true] in
  let dismissed := Dashboard.run st [Dashboard.EvDeleteClick sid;
                                     Dashboard.EvConfirm k false] in
  let failed := Dashboard.run st [Dashboard.EvDeleteClick sid;
                                  Dashboard.EvConfirm k true;
                                  Dashboard.EvDeleteReply k false] in
  (Dashboard.chatSessions deleted =
     List.filter (λ s, negb (strict_eq (Dashboard.session_id s) sid))
                 (Dashboard.chatSessions st) ∧
   (sid ∉ map Dashboard.session_id (Dashboard.chatSessions deleted)) ∧
   Dashboard.activeChatId deleted =
     (if decide (Dashboard.activeChatId st = sid) then lit "new"
      else Dashboard.activeChatId st) ∧
   (sid ≠ lit "new" → Dashboard.activeChatId deleted ≠ sid) ∧
   Dashboard.tasks deleted = Dashboard.tasks st ∧
   Dashboard.effects deleted =
     Dashboard.effects st ++
     [Dashboard.ConfirmDialog; Dashboard.DeleteSession sid (Dashboard.token st);
      Dashboard.Alert (lit "Deleted!")]) ∧
  (Dashboard.chatSessions dismissed = Dashboard.chatSessions st ∧
   Dashboard.activeChatId dismissed = Dashboard.activeChatId st ∧
   Dashboard.tasks dismissed = Dashboard.tasks st ∧
   Dashboard.effects dismissed = Dashboard.effects st ++ [Dashboard.ConfirmDialog]) ∧
  (Dashboard.chatSessions failed = Dashboard.chatSessions st ∧
   Dashboard.activeChatId failed = Dashboard.activeChatId st ∧
   Dashboard.tasks failed = Dashboard.tasks st ∧
   Dashboard.effects failed =
     Dashboard.effects st ++
     [Dashboard.ConfirmDialog; Dashboard.DeleteSession sid (Dashboard.token st);
      Dashboard.Alert (lit "Error")]) ∧
  (∀ click, Dashboard.step click (Dashboard.EvDeleteClick sid) =
     Dashboard.mkState (Dashboard.chatSessions click) (Dashboard.activeChatId click)
       (Dashboard.isLoading click) (Dashboard.token click)
       (Dashboard.tasks click ++
          [Dashboard.AwaitConfirm sid (Dashboard.activeChatId click)
                                  (Dashboard.token click)])
       (Dashboard.effects click ++ [Dashboard.ConfirmDialog])) ∧
  (∀ dialog j active tok isConfirmed,
     Dashboard.tasks dialog !! j = Some (Dashboard.AwaitConfirm sid active tok) →
     Dashboard.step dialog (Dashboard.EvConfirm j isConfirmed) =
     Dashboard.mkState (Dashboard.chatSessions dialog) (Dashboard.activeChatId dialog)
       (Dashboard.isLoading dialog) (Dashboard.token dialog)
       (delete j (Dashboard.tasks dialog) ++
          if isConfirmed then [Dashboard.AwaitDelete sid active] else [])
       (Dashboard.effects dialog ++
          if isConfirmed then [Dashboard.DeleteSession sid tok] else [])) ∧
  (∀ pending j active ok,
     Dashboard.tasks pending !! j = Some (Dashboard.AwaitDelete sid active) →
     Dashboard.step pending (Dashboard.EvDeleteReply j ok) =
     Dashboard.mkState
       (if ok then List.filter (λ s, negb (strict_eq (Dashboard.session_id s) sid))
                               (Dashboard.chatSessions pending)
        else Dashboard.chatSessions pending)
       (if ok && bool_decide (active = sid) then lit "new"
        else Dashboard.activeChatId pending)
       (Dashboard.isLoading pending) (Dashboard.token pending)
       (delete j (Dashboard.tasks pending))
       (Dashboard.effects pending ++
          [Dashboard.Alert (if ok then lit "Deleted!" else lit "Error")])) ∧
  (Dashboard.activeChatId st ≠ sid →
   let selected := Dashboard.run st [Dashboard.EvDeleteClick sid;
                                     Dashboard.EvConfirm k true;
                                     Dashboard.EvChatSelect sid;
                                     Dashboard.EvDeleteReply k true] in
   Dashboard.activeChatId selected = sid ∧
   sid ∉ map Dashboard.session_id (Dashboard.chatSessions selected)).
Proof.
  cbv zeta. unfold Dashboard.run. cbn [foldl].
  assert (Hconfirm : ∀ b,
    Dashboard.step (Dashboard.step st (Dashboard.EvDeleteClick sid))
                   (Dashboard.EvConfirm (length (Dashboard.tasks st)) b) =
    if b then
      Dashboard.mkState (Dashboard.chatSessions st) (Dashboard.activeChatId st)
        (Dashboard.isLoading st) (Dashboard.token st)
        (Dashboard.tasks st ++ [Dashboard.AwaitDelete sid (Dashboard.activeChatId st)])
        (Dashboard.effects st ++
           [Dashboard.ConfirmDialog; Dashboard.DeleteSession sid (Dashboard.token st)])
    else
      Dashboard.mkState (Dashboard.chatSessions st) (Dashboard.activeChatId st)
        (Dashboard.isLoading st) (Dashboard.token st) (Dashboard.tasks st)
        (Dashboard.effects st ++ [Dashboard.ConfirmDialog])).
  { intros b. cbn [Dashboard.step Dashboard.handleDeleteSession Dashboard.spawn
                   Dashboard.set_tasks Dashboard.emit Dashboard.tasks].
    rewrite list_lookup_middle by done.
    unfold Dashboard.handleDeleteSession_confirmed, Dashboard.take_task,
      Dashboard.set_tasks, Dashboard.spawn, Dashboard.emit. simpl.
    rewrite delete_middle, app_nil_r. destruct b; [|done].
    unfold Dashboard.set_tasks. simpl. by rewrite <- app_assoc. }
  rewrite (Hconfirm true), (Hconfirm false).
  cbn [Dashboard.step Dashboard.tasks]. rewrite list_lookup_middle by done.
  unfold Dashboard.handleDeleteSession_resume, Dashboard.take_task,
    Dashboard.set_tasks, Dashboard.setChatSessions, Dashboard.emit, strict_eq.
  cbn [Dashboard.tasks Dashboard.chatSessions Dashboard.activeChatId
       Dashboard.isLoading Dashboard.token Dashboard.effects].
  rewrite delete_middle, app_nil_r.
  split_and!; try done.
  - by case_bool_decide.
  - case_bool_decide; simpl; apply filter_drops_session.
  - case_bool_decide; simpl; by case_decide.
  - intros Hnew. case_bool_decide as Hact; simpl; [done|]. congruence.
  - by case_bool_decide.
  - case_bool_decide; simpl; by rewrite <- app_assoc.
  - simpl. by rewrite <- app_assoc.
  - intros dialog j active tok b Hj. cbn [Dashboard.step]. rewrite Hj.
    unfold Dashboard.handleDeleteSession_confirmed, Dashboard.take_task,
      Dashboard.spawn, Dashboard.set_tasks, Dashboard.emit.
    destruct b; simpl; by rewrite ?app_nil_r.
  - intros pending j active ok Hj. cbn [Dashboard.step]. rewrite Hj.
    unfold Dashboard.handleDeleteSession_resume, Dashboard.take_task,
      Dashboard.set_tasks, Dashboard.setChatSessions, Dashboard.emit, strict_eq.
    destruct ok; [|done]. by case_bool_decide.
  - intros Hact. cbn [Dashboard.step Dashboard.setActiveChatId Dashboard.tasks].
    rewrite list_lookup_middle by done.
    unfold Dashboard.handleDeleteSession_resume, Dashboard.take_task,
      Dashboard.set_tasks, Dashboard.setChatSessions, Dashboard.emit, strict_eq.
    cbn [Dashboard.tasks Dashboard.chatSessions Dashboard.activeChatId
         Dashboard.isLoading Dashboard.token Dashboard.effects].
    rewrite bool_decide_false by done. simpl. split; [done|].
    apply filter_drops_session.
Qed.

(** The list a reply of the sessions request leaves in [chatSessions]: the
    array of the reply, or the empty list when the request failed or the
    reply was not an array. *)
Lemma Dashboard_sessions_reply (st : Dashboard.State)
    (select_after : option jsstring)
    (reply : option (option (list Dashboard.Session))) :
  Dashboard.step (Dashboard.fetchChatSessions select_after st)
                 (Dashboard.EvSessionsReply (length (Dashboard.tasks st)) reply) =
  Dashboard.mkState
    (match reply with Some (Some l) => l | _ => [] end)
    (match select_after with
     | Some sid => sid
     | None =>
         match reply with
         | Some (Some (first :: _)) => Dashboard.session_id first
         | _ => Dashboard.activeChatId st
         end
     end)
    false (Dashboard.token st) (Dashboard.tasks st)
    (Dashboard.effects st ++ [Dashboard.GetSessions (Dashboard.token st)] ++
       match reply with None => [Dashboard.Alert (lit "Error")] | Some _ => [] end).
Proof.
  unfold Dashboard.fetchChatSessions.
  cbn [Dashboard.step Dashboard.spawn Dashboard.set_tasks Dashboard.emit
       Dashboard.setIsLoading Dashboard.tasks].
  rewrite list_lookup_middle by done.
  unfold Dashboard.take_task, Dashboard.set_tasks, Dashboard.fetchChatSessions_resume,
    Dashboard.setChatSessions, Dashboard.setActiveChatId, Dashboard.setIsLoading,
    Dashboard.emit.
  destruct reply as [[[|first l]|]|], select_after as [sid|]; simpl;
    rewrite delete_middle, app_nil_r; by rewrite <- ?app_assoc, ?app_nil_r.
Qed.

(** X17.  Refreshing the list of conversations.  After [handleNewSession]
    and the reply to its request, whatever that reply is, the active
    conversation is the new session; the refresh made on mount instead
    selects the first conversation of a non-empty array and leaves the
    active conversation alone otherwise.  In both cases the list becomes the
    array of the reply, or the empty list when the request fails or the
    reply is not an array; loading is over, no task is left, and exactly one
    request was issued. *)
Theorem Dashboard_refresh_selects_a_session
    (st : Dashboard.State) (sid : jsstring)
    (reply : option (option (list Dashboard.Session))) :
  let k := length (Dashboard.tasks st) in
  let created := Dashboard.run st [Dashboard.EvNewSession sid;
                                   Dashboard.EvSessionsReply k reply] in
  let mounted := Dashboard.run st [Dashboard.EvMount;
                                   Dashboard.EvSessionsReply k reply] in
  (Dashboard.activeChatId created = sid ∧
   Dashboard.chatSessions created = match reply with Some (Some l) => l | _ => [] end ∧
   Dashboard.isLoading created = false ∧
   Dashboard.tasks created = Dashboard.tasks st) ∧
  (truthy_opt (Dashboard.token st) = true →
   Dashboard.activeChatId mounted =
     match reply with
     | Some (Some (first :: _)) => Dashboard.session_id first
     | _ => Dashboard.activeChatId st
     end ∧
   Dashboard.chatSessions mounted = match reply with Some (Some l) => l | _ => [] end ∧
   Dashboard.isLoading mounted = false ∧
   Dashboard.tasks mounted = Dashboard.tasks st ∧
   Dashboard.effects mounted =
     Dashboard.effects st ++ [Dashboard.GetSessions (Dashboard.token st)] ++
       match reply with None => [Dashboard.Alert (lit "Error")] | Some _ => [] end) ∧
  (truthy_opt (Dashboard.token st) = false →
   Dashboard.chatSessions mounted = [] ∧ Dashboard.isLoading mounted = false ∧
   Dashboard.effects mounted = Dashboard.effects st).
Proof.
  cbv zeta. unfold Dashboard.run. cbn [foldl].
  change (Dashboard.step st (Dashboard.EvNewSession sid))
    with (Dashboard.fetchChatSessions (Some sid) st).
  rewrite Dashboard_sessions_reply. split_and!; try done.
  - intros Htok.
    change (Dashboard.step st Dashboard.EvMount) with (Dashboard.mount_effect st).
    unfold Dashboard.mount_effect. rewrite Htok.
    rewrite Dashboard_sessions_reply. done.
  - intros Htok.
    change (Dashboard.step st Dashboard.EvMount) with (Dashboard.mount_effect st).
    unfold Dashboard.mount_effect. rewrite Htok.
    simpl. rewrite (lookup_ge_None_2 (Dashboard.tasks st)) by lia. done.
Qed.

(** * The calendar page *)



Lemma Calendar_create_form_step (st : Calendar.State) (ev : Calendar.Event) :
  (Calendar.showForm st = true → Calendar.formMode st = lit "create" →
   Calendar.selectedEvent st = None) →
  Calendar.showForm (Calendar.step st ev) = true →
  Calendar.formMode (Calendar.step st ev) = lit "create" →
  Calendar.selectedEvent (Calendar.step st ev) = None.
Proof.
  intros Hinv.
  assert (Hkeep : ∀ st',
    Calendar.showForm st' = Calendar.showForm st →
    Calendar.formMode st' = Calendar.formMode st →
    Calendar.selectedEvent st' = Calendar.selectedEvent st →
    Calendar.showForm st' = true → Calendar.formMode st' = lit "create" →
    Calendar.selectedEvent st' = None).
  { intros st' -> -> ->. exact Hinv. }
  destruct ev as [| |e| | |data| |k reply|k ok|k b|k ok|k]; simpl.
  - by apply Hkeep.
  - done.
  - destruct (Calendar.loading st); [by apply Hkeep | done].
  - unfold Calendar.panel. destruct (Calendar.showForm st) eqn:Hs; [by apply Hkeep|].
    destruct (Calendar.selectedEvent st) eqn:Hsel; [|by apply Hkeep].
    simpl. intros _ H. discriminate H.
  - unfold Calendar.panel. destruct (Calendar.showForm st) eqn:Hs; [by apply Hkeep|].
    destruct (Calendar.selectedEvent st) eqn:Hsel; by apply Hkeep.
  - unfold Calendar.panel, Calendar.handleFormSubmit.
    destruct (Calendar.showForm st) eqn:Hs.
    + destruct (strict_eq (Calendar.formMode st) (lit "create")); [by apply Hkeep|].
      destruct (Calendar.selectedEvent st) eqn:Hsel; by apply Hkeep.
    + destruct (Calendar.selectedEvent st) eqn:Hsel; by apply Hkeep.
  - unfold Calendar.panel. destruct (Calendar.showForm st) eqn:Hs; [done|].
    destruct (Calendar.selectedEvent st) eqn:Hsel; by apply Hkeep.
  - destruct (Calendar.tasks st !! k) as [[]|]; try by apply Hkeep.
    destruct reply; by apply Hkeep.
  - destruct (Calendar.tasks st !! k) as [[]|]; try by apply Hkeep.
    destruct ok; [done | by apply Hkeep].
  - destruct (Calendar.tasks st !! k) as [[]|]; try by apply Hkeep.
    destruct b; by apply Hkeep.
  - destruct (Calendar.tasks st !! k) as [[]|]; try by apply Hkeep.
    destruct ok; by apply Hkeep.
  - destruct (Calendar.tasks st !! k) as [[]|]; try by apply Hkeep.
    done.
Qed.

(** X19.  In every state the calendar page can reach, a form open in the
    mode ['create'] has no selected event behind it: the form for a new
    event is never handed the data of an event viewed or edited before,
    whatever requests and dialogs were in flight meanwhile. *)
Theorem Calendar_create_form_has_no_initial_data
    (tok : option jsstring) (evs : list Calendar.Event) (initialData : option EventList.CalendarEvent) :
  Calendar.panel (Calendar.run (Calendar.initial tok) evs)
    = Calendar.FormPanel (lit "create") initialData →
  initialData = None.
Proof.
  assert (Hrun : ∀ st,
    (Calendar.showForm st = true → Calendar.formMode st = lit "create" →
     Calendar.selectedEvent st = None) →
    Calendar.showForm (Calendar.run st evs) = true →
    Calendar.formMode (Calendar.run st evs) = lit "create" →
    Calendar.selectedEvent (Calendar.run st evs) = None).
  { induction evs as [|ev evs IH]; intros st Hst; [done|].
    unfold Calendar.run. cbn [foldl]. apply IH. by apply Calendar_create_form_step. }
  unfold Calendar.panel. intros Hp.
  destruct (Calendar.showForm (Calendar.run (Calendar.initial tok) evs)) eqn:Hs.
  - injection Hp as Hm <-. by apply Hrun.
  - by destruct (Calendar.selectedEvent (Calendar.run (Calendar.initial tok) evs)).
Qed.

Lemma Calendar_create_form_has_no_initial_data_witness :
  Calendar.panel
    (Calendar.run (Calendar.initial (Some (lit "t")))
       [Calendar.EvMount; Calendar.EvEventsReply 0 (Some [standup]);
        Calendar.EvView standup; Calendar.EvCreate])
    = Calendar.FormPanel (lit "create") None ∧
  (None : option EventList.CalendarEvent) = None.
Proof.
  split; [reflexivity|].
  apply (Calendar_create_form_has_no_initial_data (Some (lit "t"))
           [Calendar.EvMount; Calendar.EvEventsReply 0 (Some [standup]);
            Calendar.EvView standup; Calendar.EvCreate] None).
  reflexivity.
Defined.
